(** * vis.plotting.scatter: the customized scatter plot helper

    A shallow embedding of [src/vis/plotting/scatter.py] and the properties
    of its [plot] function.

    [plot] is a wrapper around an external plotting engine (matplotlib).  The
    wrapper's own work is: resolving the keyword options against their
    defaults, refusing a missing engine handle, dispatching on the number of
    columns of the point matrix, selecting columns, building the axis labels
    and handing everything to the engine.  All of that is translated from the
    source.  The engine's objects (figures and axes) live in an explicit
    store that [plot] threads through its calls. *)

From Stdlib Require Import ZArith QArith Qcanon Ascii String List Lia.
From stdpp Require Import base option list strings pretty numbers functions.
From stdpp Require Import gmap fin_maps.

Set Warnings "-notation-for-abbreviation".

Local Open Scope string_scope.
Local Open Scope list_scope.
Local Open Scope Z_scope.

(** ** Python values and outcomes *)

Module Py.

(** The values a keyword option can hold.  The docstring of [plot] types the
    options as [str], [int], [None] and tuples of [int]; the universe below
    is exactly that, so a tuple holds integers only. *)
Inductive pyval :=
| VNone
| VInt (n : Z)
| VStr (s : string)
| VTuple (items : list Z).

(** Exceptions raised by the wrapper itself or by the Python operations it
    applies (subscripting, [+], [str.format], numpy column selection). *)
Inductive exn :=
| TypeError (msg : string)
| IndexError
| ValueError
| AttributeError.

(** The outcome of a computation.  [Beyond] marks an input whose treatment is
    decided by code outside this file's model (an engine-side conversion of
    a value that is not of the documented type, a [str.format] field outside
    the modelled fragment): the model takes no stance on it. *)
Inductive result (A : Type) :=
| Ok (a : A)
| Raise (e : exn)
| Beyond.
Arguments Ok {A} a.
Arguments Raise {A} e.
Arguments Beyond {A}.

Definition rmap {A B} (f : A -> B) (r : result A) : result B :=
  match r with
  | Ok a => Ok (f a)
  | Raise e => Raise e
  | Beyond => Beyond
  end.

Definition rbind {A B} (r : result A) (k : A -> result B) : result B :=
  match r with
  | Ok a => k a
  | Raise e => Raise e
  | Beyond => Beyond
  end.

(** [v is None] *)
Definition is_None (v : pyval) : bool :=
  match v with VNone => true | _ => false end.

(** [v[i]] for a constant index [i >= 0].  Tuples and strings are the
    subscriptable values of the universe; a string yields the one-character
    string at [i]. *)
Definition subscript (v : pyval) (i : nat) : result pyval :=
  match v with
  | VTuple items =>
      match items !! i with
      | Some n => Ok (VInt n)
      | None => Raise IndexError
      end
  | VStr s =>
      match String.get i s with
      | Some ch => Ok (VStr (String ch EmptyString))
      | None => Raise IndexError
      end
  | VNone => Raise (TypeError "'NoneType' object is not subscriptable")
  | VInt _ => Raise (TypeError "'int' object is not subscriptable")
  end.

(** [v + 1] *)
Definition add1 (v : pyval) : result pyval :=
  match v with
  | VInt n => Ok (VInt (n + 1))
  | VStr _ => Raise (TypeError "can only concatenate str to str")
  | VTuple _ => Raise (TypeError "can only concatenate tuple to tuple")
  | VNone =>
      Raise (TypeError "unsupported operand type(s) for +: 'NoneType' and 'int'")
  end.

(** *** [str.format] with one positional argument

    The template is scanned left to right.  Doubled braces are the escapes
    of a literal brace; a replacement field runs from an opening brace to the
    next closing brace.  The modelled fields are the ones an axis label
    uses: an empty or numeric field name, optionally followed by a colon and
    the presentation type [d] (or nothing).  A numeric name is read digit by
    digit into a machine integer and refused once it no longer fits.
    Conversions, attribute and item
    access, named fields, nested fields and the rest of the format
    mini-language are [Beyond]. *)

(** How the fields seen so far were numbered: Python refuses to mix
    automatic numbering ([{}]) with explicit indices ([{0}]). *)
Inductive numbering :=
| NoField
| Automatic (next : nat)
| Manual.

Definition is_digit (ch : ascii) : bool :=
  let n := nat_of_ascii ch in (48 <=? n)%nat && (n <=? 57)%nat.

Fixpoint all_digits (s : string) : bool :=
  match s with
  | EmptyString => true
  | String ch r => is_digit ch && all_digits r
  end.

(** The largest field index: [sys.maxsize] of a 64-bit interpreter. *)
Definition PY_SSIZE_T_MAX : Z := 2 ^ 63 - 1.

(** Value of a string of decimal digits, most significant first; [None] as
    soon as the next digit would take the value past [PY_SSIZE_T_MAX]. *)
Fixpoint get_integer (acc : Z) (s : string) : option Z :=
  match s with
  | EmptyString => Some acc
  | String ch r =>
      let digit := Z.of_nat (nat_of_ascii ch) - 48 in
      if (PY_SSIZE_T_MAX - digit) / 10 <? acc then None
      else get_integer (acc * 10 + digit) r
  end.

(** Splits a field at its first colon: (name, Some spec) or (name, None). *)
Fixpoint split_colon (s : string) : string * option string :=
  match s with
  | EmptyString => (EmptyString, None)
  | String ch r =>
      if Ascii.eqb ch ":" then (EmptyString, Some r)
      else let '(name, spec) := split_colon r in (String ch name, spec)
  end.

(** [format(n, spec)] for an [int]: the empty specification and [d] both
    give the decimal numeral. *)
Definition format_int (n : Z) (spec : option string) : result string :=
  match spec with
  | None => Ok (pretty n)
  | Some sp =>
      if String.eqb sp "" || String.eqb sp "d" then Ok (pretty n)
      else Beyond
  end.

(** One replacement field: returns its text and the new numbering state.
    The single positional argument has index 0. *)
Definition render_field (num : numbering) (arg : Z) (body : string)
  : result (string * numbering) :=
  let '(name, spec) := split_colon body in
  if String.eqb name "" then
    match num with
    | Manual => Raise ValueError
    | NoField => rmap (fun s => (s, Automatic 1)) (format_int arg spec)
    | Automatic O => rmap (fun s => (s, Automatic 1)) (format_int arg spec)
    | Automatic (S _) => Raise IndexError
    end
  else if all_digits name then
    match get_integer 0 name with
    | None => Raise ValueError
    | Some index =>
        match num with
        | Automatic _ => Raise ValueError
        | _ =>
            if index =? 0 then rmap (fun s => (s, Manual)) (format_int arg spec)
            else Raise IndexError
        end
    end
  else Beyond.

(** Scanner state: in literal text, or inside a field whose characters so
    far are [body]. *)
Inductive scan :=
| InText
| InField (body : string).

Fixpoint format_scan (st : scan) (num : numbering) (arg : Z) (t : string)
  : result string :=
  match st with
  | InText =>
      match t with
      | EmptyString => Ok EmptyString
      | String "{" (String "{" r) =>
          rmap (String "{") (format_scan InText num arg r)
      | String "{" r => format_scan (InField EmptyString) num arg r
      | String "}" (String "}" r) =>
          rmap (String "}") (format_scan InText num arg r)
      | String "}" _ => Raise ValueError
      | String ch r => rmap (String ch) (format_scan InText num arg r)
      end
  | InField body =>
      match t with
      | EmptyString => Raise ValueError
      | String "}" r =>
          rbind (render_field num arg body) (fun '(txt, num') =>
          rmap (String.append txt) (format_scan InText num' arg r))
      | String "{" _ => Beyond
      | String ch r =>
          format_scan (InField (body +:+ String ch EmptyString)) num arg r
      end
  end.

(** [template.format(v)]: [template] must be a string (other values have no
    [format] attribute); the modelled argument is an integer.  Python looks
    the method up before it evaluates the argument, hence the two stages. *)
Definition format_method (template : pyval) : result (pyval -> result string) :=
  match template with
  | VStr t =>
      Ok (fun v =>
            match v with
            | VInt n => format_scan InText NoField n t
            | _ => Beyond
            end)
  | _ => Raise AttributeError
  end.

Definition format (template : pyval) (v : pyval) : result string :=
  rbind (format_method template) (fun fmt => fmt v).

End Py.

Import Py.

(** ** The point matrix *)

(** Numbers held by arrays and axis limits.  [plot] does no arithmetic on
    them, it only passes them on; they are modelled as rationals. *)
Definition num : Type := Qc.

(** An [n x m] numpy array: [shape = (nrows, ncols)]. *)
Record ndarray := {
  nrows : nat;
  ncols : nat;
  cell : nat -> nat -> num;
}.

(** Column [j] of [A], top to bottom. *)
Definition column_at (A : ndarray) (j : nat) : list num :=
  map (fun i => cell A i j) (seq 0 (nrows A)).

(** [A[:, v]]: an integer index selects a column, counting from the end when
    negative, and is refused outside [-m, m); a string is not an index.
    [None] and a tuple are numpy's [newaxis] and fancy indexing, whose result
    is not a column. *)
Definition take_column (A : ndarray) (v : pyval) : result (list num) :=
  match v with
  | VInt j =>
      let m := Z.of_nat (ncols A) in
      if (0 <=? j) && (j <? m) then Ok (column_at A (Z.to_nat j))
      else if (- m <=? j) && (j <? 0) then Ok (column_at A (Z.to_nat (m + j)))
      else Raise IndexError
  | VStr _ => Raise IndexError
  | VNone => Beyond
  | VTuple _ => Beyond
  end.

(** ** The plotting engine

    Modelled from the spec: the plotting engine (figure and axes creation,
    drawing, view limits, camera) is an external collaborator that [plot]
    only calls into.  The model keeps, per object, what the calls made by
    [plot] set, and takes what the engine alone decides from the engine
    handle: the limits of a fresh axes, the limits after data is added, the
    initial camera, whether a 3-D axes registers itself in its figure, which
    marker sizes, colours and font sizes it refuses and with what exception,
    the floating-point number it makes of an integer bound, and the limits
    it really stores for a requested interval.  A value handed over must be
    of the type the docstring of [plot] documents; the engine's treatment
    of any other value is not modelled. *)

Module Engine.

(** Axis limits: a pair of numbers. *)
Definition bound : Type := num * num.

Inductive axis := X | Y | Z_.

#[global] Instance axis_eq_dec : EqDecision axis.
Proof. solve_decision. Defined.

(** The point size [s]: a scalar or one size per point. *)
Inductive marker_size :=
| SizeScalar (v : num)
| SizeArray (vs : list num).

(** The colour [c]: a colour specification or one RGBA value per point. *)
Inductive color :=
| ColorSpec (name : string)
| ColorArray (rgba : list (num * num * num * num)).

(** [fontsize]: a size name or a number of points. *)
Inductive fontsize :=
| FontName (name : string)
| FontPoints (n : Z).

(** An axis label as its setter received it: the text and the font size
    that were asked for. *)
Record label := {
  label_text : string;
  label_size : fontsize;
}.

(** The handle [plt]: what the engine decides on its own.

    - [fresh_limits], [fresh_view]: the limits and the camera (elevation,
      azimuth) of a new axes;
    - [autoscale]: the limits of an axis once it received data;
    - [auto_add_to_figure]: whether [Axes3D(fig)] adds itself to the axes of
      [fig] (it did in the versions the module was written for, later
      versions leave that to the caller);
    - [scatter_error]: the exception [scatter] raises on coordinates, sizes
      and colours it refuses (a per-point array of another length, a colour
      it does not know), [None] when it draws them;
    - [fontsize_error]: the exception a label setter raises on a font size
      it refuses (a size name it does not know), [None] when it takes it;
    - [num_of_int]: the number a bound setter makes of an integer: the
      nearest floating-point number, or the exception raised when there is
      none;
    - [settle]: the limits stored when an interval, lower end first, is
      requested: an interval the engine finds singular is widened. *)
Record pyplot := {
  fresh_limits : axis -> bound;
  autoscale : axis -> list num -> bound -> bound;
  fresh_view : Z * Z;
  auto_add_to_figure : bool;
  scatter_error :
    list num -> list num -> option (list num) -> marker_size -> color ->
    option exn;
  fontsize_error : fontsize -> option exn;
  num_of_int : Z -> result num;
  settle : axis -> bound -> bound;
}.

Inductive axes_kind := Axes2D | Axes3D_.

(** The argument of a bound setter: a pair of numbers the engine returned,
    or a value of the caller. *)
Inductive bound_arg :=
| Floats (b : bound)
| Given (v : pyval).

(** One [scatter] call as the axes received it. *)
Record scatter_call := {
  sc_x : list num;
  sc_y : list num;
  sc_z : option (list num);
  sc_s : marker_size;
  sc_c : color;
}.

(** An axes object.  A 2-D axes has no Z limits and no camera. *)
Record axes_obj := {
  ax_engine : pyplot;
  ax_figure : nat;
  ax_kind : axes_kind;
  ax_scatter : list scatter_call;
  ax_limits : axis -> option bound;
  ax_label : axis -> option label;
  ax_rotate_label : axis -> option bool;   (* None: automatic *)
  ax_view : option (Z * Z);                (* (elev, azim) *)
}.

Record figure_obj := {
  fig_engine : pyplot;
  fig_suptitle : option string;
  fig_axes : list nat;   (* its axes, the current one last *)
}.

(** Recommended camera angles per problem and dimensionality label. *)
Definition angle_table : Type := gmap string (gmap string (Z * Z)).

(** What a call can read or change: the dictionary bound to the module's
    global [camera_angles] and the engine's objects.  A figure or axes reference is an index into
    the respective list. *)
Record world := {
  module_camera_angles : angle_table;
  figures : list figure_obj;
  axes_objs : list axes_obj;
}.

Definition set_figures (fs : list figure_obj) (w : world) : world :=
  {| module_camera_angles := module_camera_angles w; figures := fs;
     axes_objs := axes_objs w |}.

Definition set_axes_objs (axs : list axes_obj) (w : world) : world :=
  {| module_camera_angles := module_camera_angles w; figures := figures w;
     axes_objs := axs |}.

Definition set_camera_angles (t : angle_table) (w : world) : world :=
  {| module_camera_angles := t; figures := figures w; axes_objs := axes_objs w |}.

(** *** Computations over the world *)

Definition M (A : Type) : Type := world -> result A * world.

Definition ret {A} (a : A) : M A := fun w => (Ok a, w).

Definition bind {A B} (m : M A) (k : A -> M B) : M B :=
  fun w =>
    match m w with
    | (Ok a, w') => k a w'
    | (Raise e, w') => (Raise e, w')
    | (Beyond, w') => (Beyond, w')
    end.

Definition raise {A} (e : exn) : M A := fun w => (Raise e, w).

Definition lift {A} (r : result A) : M A := fun w => (r, w).

End Engine.

Import Engine.

Declare Scope world_scope.
Delimit Scope world_scope with world.
Notation "x <- m ;; k" := (bind m (fun x => k))
  (at level 100, m at next level, right associativity) : world_scope.
Notation "m ;; k" := (bind m (fun _ => k))
  (at level 100, right associativity) : world_scope.

Local Open Scope world_scope.

(** *** Methods of an axes object *)

Module Axes.

Definition fresh (plt : pyplot) (fig : nat) (k : axes_kind) : axes_obj :=
  {| ax_engine := plt;
     ax_figure := fig;
     ax_kind := k;
     ax_scatter := [];
     ax_limits := fun d =>
       match k, d with
       | Axes2D, Z_ => None
       | _, _ => Some (fresh_limits plt d)
       end;
     ax_label := fun _ => None;
     ax_rotate_label := fun _ => None;
     ax_view := match k with Axes2D => None | Axes3D_ => Some (fresh_view plt) end |}.

Definition with_scatter (sc : list scatter_call) (lim : axis -> option bound)
    (a : axes_obj) : axes_obj :=
  {| ax_engine := ax_engine a; ax_figure := ax_figure a; ax_kind := ax_kind a;
     ax_scatter := sc; ax_limits := lim; ax_label := ax_label a;
     ax_rotate_label := ax_rotate_label a; ax_view := ax_view a |}.

Definition with_limits (lim : axis -> option bound) (a : axes_obj) : axes_obj :=
  with_scatter (ax_scatter a) lim a.

Definition with_label (lab : axis -> option label) (a : axes_obj) : axes_obj :=
  {| ax_engine := ax_engine a; ax_figure := ax_figure a; ax_kind := ax_kind a;
     ax_scatter := ax_scatter a; ax_limits := ax_limits a; ax_label := lab;
     ax_rotate_label := ax_rotate_label a; ax_view := ax_view a |}.

Definition with_rotate_label (rot : axis -> option bool) (a : axes_obj)
  : axes_obj :=
  {| ax_engine := ax_engine a; ax_figure := ax_figure a; ax_kind := ax_kind a;
     ax_scatter := ax_scatter a; ax_limits := ax_limits a;
     ax_label := ax_label a; ax_rotate_label := rot; ax_view := ax_view a |}.

Definition with_view (v : option (Z * Z)) (a : axes_obj) : axes_obj :=
  {| ax_engine := ax_engine a; ax_figure := ax_figure a; ax_kind := ax_kind a;
     ax_scatter := ax_scatter a; ax_limits := ax_limits a;
     ax_label := ax_label a; ax_rotate_label := ax_rotate_label a;
     ax_view := v |}.

(** The axes after a scatter call: the call is recorded and the engine
    rescales the limits of the axes that received data. *)
Definition scattered (xs ys : list num) (zs : option (list num))
    (s : marker_size) (c : color) (a : axes_obj) : axes_obj :=
  with_scatter
    (ax_scatter a ++
       [{| sc_x := xs; sc_y := ys; sc_z := zs; sc_s := s; sc_c := c |}])
    (fun d =>
       match d with
       | X => autoscale (ax_engine a) X xs <$> ax_limits a X
       | Y => autoscale (ax_engine a) Y ys <$> ax_limits a Y
       | Z_ =>
           match zs with
           | Some z => autoscale (ax_engine a) Z_ z <$> ax_limits a Z_
           | None => ax_limits a Z_
           end
       end) a.

(** [ax.scatter(x, y, s=s, c=c)] on a 2-D axes and
    [ax.scatter(x, y, z, s=s, c=c)] on a 3-D one.  Nothing is drawn when the
    engine refuses the sizes or the colours. *)
Definition scatter (xs ys : list num) (zs : option (list num))
    (s : marker_size) (c : color) (a : axes_obj) : result axes_obj :=
  match ax_kind a, zs with
  | Axes2D, None | Axes3D_, Some _ =>
      match scatter_error (ax_engine a) xs ys zs s c with
      | None => Ok (scattered xs ys zs s c a)
      | Some e => Raise e
      end
  | _, _ => Beyond
  end.

(** A pair in increasing order, and whether stored limits run downwards. *)
Definition ordered (b : bound) : bound :=
  if bool_decide (b.1 < b.2)%Qc then b else (b.2, b.1).

Definition inverted (b : bound) : bool := bool_decide (b.2 < b.1)%Qc.

(** [ax.get_xbound()], [get_ybound], [get_zbound]: the limits, lower first. *)
Definition get_bound (d : axis) (a : axes_obj) : result bound :=
  match ax_limits a d with
  | Some b => Ok (ordered b)
  | None => Raise AttributeError
  end.

(** The pair of numbers a bound setter makes of its argument.  Of the
    caller's values, a pair of integers is the documented one. *)
Definition as_bound (plt : pyplot) (arg : bound_arg) : result bound :=
  match arg with
  | Floats b => Ok b
  | Given (VTuple [lo; hi]) =>
      rbind (num_of_int plt lo) (fun l =>
      rmap (fun h => (l, h)) (num_of_int plt hi))
  | Given _ => Beyond
  end.

(** The limits an axis with limits [old] has once a bound setter received
    [b]: the interval as the engine settles it, put in the direction the
    axis already has. *)
Definition placed (settled : bound -> bound) (old b : bound) : bound :=
  let b' := settled (ordered b) in
  if inverted old then (b'.2, b'.1) else b'.

(** [ax.set_xbound(b)], [set_ybound], [set_zbound] *)
Definition set_bound (d : axis) (arg : bound_arg) (a : axes_obj)
  : result axes_obj :=
  match ax_limits a d with
  | Some old =>
      rmap (fun b =>
              with_limits
                (<[d := Some (placed (settle (ax_engine a) d) old b)]>
                   (ax_limits a)) a)
           (as_bound (ax_engine a) arg)
  | None => Raise AttributeError
  end.

(** The axes once the label setter of [d] took [text] at the size [fs]. *)
Definition labelled (d : axis) (text : string) (fs : fontsize) (a : axes_obj)
  : axes_obj :=
  with_label
    (<[d := Some {| label_text := text; label_size := fs |}]> (ax_label a)) a.

(** [ax.set_xlabel(text, fontsize=fs)], [set_ylabel], [set_zlabel]: no
    label is set when the engine refuses the font size. *)
Definition set_label (d : axis) (text : string) (fs : fontsize) (a : axes_obj)
  : result axes_obj :=
  match ax_kind a, d with
  | Axes2D, Z_ => Raise AttributeError
  | _, _ =>
      match fontsize_error (ax_engine a) fs with
      | None => Ok (labelled d text fs a)
      | Some e => Raise e
      end
  end.

Definition rotated (d : axis) (b : bool) (a : axes_obj) : axes_obj :=
  with_rotate_label (<[d := Some b]> (ax_rotate_label a)) a.

(** [ax.xaxis.set_rotate_label(b)] and its Y and Z siblings, which the axis
    objects of a 3-D axes provide. *)
Definition set_rotate_label (d : axis) (b : bool) (a : axes_obj)
  : result axes_obj :=
  match ax_kind a with
  | Axes3D_ => Ok (rotated d b a)
  | Axes2D => Raise AttributeError
  end.

(** [ax.view_init(elev, azim)] *)
Definition view_init (elev azim : Z) (a : axes_obj) : result axes_obj :=
  match ax_kind a with
  | Axes3D_ => Ok (with_view (Some (elev, azim)) a)
  | Axes2D => Raise AttributeError
  end.

End Axes.

(** *** Calls through references *)

Module Mpl.

Definition read_figure (fig : nat) : M figure_obj := fun w =>
  match figures w !! fig with
  | Some f => (Ok f, w)
  | None => (Beyond, w)
  end.

Definition write_figure (fig : nat) (f : figure_obj) : M unit := fun w =>
  (Ok tt, set_figures (<[fig := f]> (figures w)) w).

Definition new_figure (f : figure_obj) : M nat := fun w =>
  (Ok (length (figures w)), set_figures (figures w ++ [f]) w).

Definition new_axes (a : axes_obj) : M nat := fun w =>
  (Ok (length (axes_objs w)), set_axes_objs (axes_objs w ++ [a]) w).

(** A method that answers without changing the axes [ax] refers to. *)
Definition ask {B} (ax : nat) (method : axes_obj -> result B) : M B := fun w =>
  match axes_objs w !! ax with
  | Some a => (method a, w)
  | None => (Beyond, w)
  end.

(** A method that changes the axes [ax] refers to; the object is updated in
    place, and left as it was when the method fails. *)
Definition call (ax : nat) (method : axes_obj -> result axes_obj) : M unit :=
  fun w =>
    match axes_objs w !! ax with
    | Some a =>
        match method a with
        | Ok a' => (Ok tt, set_axes_objs (<[ax := a']> (axes_objs w)) w)
        | Raise e => (Raise e, w)
        | Beyond => (Beyond, w)
        end
    | None => (Beyond, w)
    end.

(** [plt.figure()] *)
Definition figure (plt : pyplot) : M nat :=
  new_figure {| fig_engine := plt; fig_suptitle := None; fig_axes := [] |}.

(** [fig.suptitle(t)] *)
Definition suptitle (fig : nat) (t : string) : M unit :=
  f <- read_figure fig ;;
  write_figure fig
    {| fig_engine := fig_engine f; fig_suptitle := Some t;
       fig_axes := fig_axes f |}.

(** A new axes of kind [k] made for the figure [fig], and added to the axes
    of the figure when [register] says so. *)
Definition add_axes (fig : nat) (k : axes_kind) (register : pyplot -> bool)
  : M nat :=
  f <- read_figure fig ;;
  ax <- new_axes (Axes.fresh (fig_engine f) fig k) ;;
  (if register (fig_engine f) then
     write_figure fig
       {| fig_engine := fig_engine f; fig_suptitle := fig_suptitle f;
          fig_axes := fig_axes f ++ [ax] |}
   else ret tt) ;;
  ret ax.

(** [fig.gca()]: the current axes of the figure, a new 2-D one, added to the
    figure, if the figure has none. *)
Definition gca (fig : nat) : M nat :=
  f <- read_figure fig ;;
  match last (fig_axes f) with
  | Some ax => ret ax
  | None => add_axes fig Axes2D (fun _ => true)
  end.

(** [Axes3D(fig)]: a new 3-D axes made for [fig]; whether the figure lists
    it is the engine's choice. *)
Definition Axes3D (fig : nat) : M nat :=
  add_axes fig Axes3D_ auto_add_to_figure.

(** *** Values crossing into the engine

    How a value of the caller reads as an argument of an engine call.  These
    only sort the value by its type; whether the engine takes the argument
    is decided in the call itself ([Axes.set_label] for a font size,
    [Axes.set_bound] for the integers of a bound). *)

Definition as_text (v : pyval) : result string :=
  match v with
  | VStr t => Ok t
  | _ => Beyond
  end.

Definition as_fontsize (v : pyval) : result fontsize :=
  match v with
  | VStr name => Ok (FontName name)
  | VInt n => Ok (FontPoints n)
  | _ => Beyond
  end.

Definition as_angle (v : pyval) : result Z :=
  match v with
  | VInt n => Ok n
  | _ => Beyond
  end.

End Mpl.

Import Mpl.

(** ** The module [vis.plotting.scatter] *)

(** Some good camera angles for scatter plots: the value the module binds to
    [camera_angles] when it is loaded. *)
Definition camera_angles : angle_table :=
  list_to_map [
    ("dtlz2", list_to_map [("3d", (60, 20)); ("4d", (-60, 30)); ("8d", (22, 21))]);
    ("dtlz2-nbi", list_to_map [("3d", (60, 20)); ("4d", (-60, 30)); ("8d", (-60, 30))]);
    ("debmdk", list_to_map [("3d", (-30, 15)); ("4d", (-20, 32)); ("8d", (-60, 30))]);
    ("debmdk-nbi", list_to_map [("3d", (-60, 30)); ("4d", (-60, 30)); ("8d", (-60, 30))]);
    ("debmdk-all", list_to_map [("3d", (-60, 30)); ("4d", (-60, 30)); ("8d", (-60, 30))]);
    ("debmdk-all-nbi", list_to_map [("3d", (-60, 30)); ("4d", (-60, 30)); ("8d", (-60, 30))]);
    ("dtlz8", list_to_map [("3d", (-60, 30)); ("4d", (-60, 30)); ("6d", (-60, 30)); ("8d", (-60, 30))]);
    ("dtlz8-nbi", list_to_map [("3d", (-60, 30)); ("4d", (-60, 30)); ("6d", (-60, 30)); ("8d", (-60, 30))]);
    ("c2dtlz2", list_to_map [("3d", (45, 15)); ("4d", (-20, 40)); ("5d", (-25, 30)); ("8d", (-25, 30))]);
    ("c2dtlz2-nbi", list_to_map [("3d", (45, 15)); ("4d", (-20, 40)); ("5d", (-25, 30)); ("8d", (-25, 30))]);
    ("cdebmdk", list_to_map [("3d", (20, 15)); ("4d", (-60, 30)); ("8d", (-60, 30))]);
    ("cdebmdk-nbi", list_to_map [("3d", (20, 15)); ("4d", (-60, 30)); ("8d", (-60, 30))]);
    ("c0dtlz2", list_to_map [("3d", (20, 25)); ("4d", (-60, 30)); ("8d", (-60, 30))]);
    ("c0dtlz2-nbi", list_to_map [("3d", (20, 25)); ("4d", (-60, 30)); ("8d", (-60, 30))]);
    ("crash-nbi", list_to_map [("3d", (30, 25))]);
    ("crash-c1-nbi", list_to_map [("3d", (30, 25))]);
    ("crash-c2-nbi", list_to_map [("3d", (30, 25))]);
    ("gaa", list_to_map [("10d", (-60, 30))]);
    ("gaa-nbi", list_to_map [("10d", (-60, 30))])
  ].

(** The state right after the module is loaded: no figure, no axes. *)
Definition loaded : world :=
  {| module_camera_angles := camera_angles; figures := []; axes_objs := [] |}.

(** The defaults of [s] and [c]; the second is the value of
    [mc.TABLEAU_COLORS['tab:blue']]. *)
Definition default_s : marker_size := SizeScalar 1%Qc.
Definition default_c : color := ColorSpec "#1f77b4".

(** [kwargs[key] if (kwargs is not None and key in kwargs) else default].
    The dictionary of a [**kwargs] parameter is never [None]. *)
Definition kwarg (kwargs : gmap string pyval) (key : string) (default : pyval)
  : pyval :=
  match kwargs !! key with
  | Some v => v
  | None => default
  end.

(** [label_prefix.format(axes[i] + 1)] *)
Definition axis_label (label_prefix axes : pyval) (i : nat) : M string :=
  fmt <- lift (format_method label_prefix) ;;
  a <- lift (subscript axes i) ;;
  n <- lift (add1 a) ;;
  lift (fmt n).

(** [get() if b is None else b], as the argument of a bound setter. *)
Definition bound_or (get : M bound) (b : pyval) : M bound_arg :=
  if is_None b then (x <- get ;; ret (Floats x)) else ret (Given b).

Definition plot (A : ndarray) (plt : option pyplot) (s : marker_size)
    (c : color) (kwargs : gmap string pyval) : M (nat * nat) :=
  (* all other parameters *)
  (* by default label_prefix is $f_n$ *)
  let label_prefix := kwarg kwargs "label_prefix" (VStr "$f_{:d}$") in
  (* default label font size is 'large' *)
  let label_fontsize := kwarg kwargs "label_fontsize" (VStr "large") in
  (* plot first 3 axes by default *)
  let axes := kwarg kwargs "axes" (VTuple [0; 1; 2]) in
  (* azimuth is -60 and elevation is 30 by default *)
  let euler := kwarg kwargs "euler" (VTuple [-60; 30]) in
  (* by default, take the entire range *)
  let xbound := kwarg kwargs "xbound" VNone in
  let ybound := kwarg kwargs "ybound" VNone in
  let zbound := kwarg kwargs "zbound" VNone in
  (* by default, no title *)
  let title := kwarg kwargs "title" VNone in
  match plt with
  | Some plt =>
      fig <- figure plt ;;
      (if is_None title then ret tt
       else t <- lift (as_text title) ;; suptitle fig t) ;;
      if (ncols A <? 3)%nat then
        ax <- gca fig ;;
        a0 <- lift (subscript axes 0) ;;
        x <- lift (take_column A a0) ;;
        a1 <- lift (subscript axes 1) ;;
        y <- lift (take_column A a1) ;;
        call ax (Axes.scatter x y None s c) ;;
        bx <- bound_or (ask ax (Axes.get_bound X)) xbound ;;
        call ax (Axes.set_bound X bx) ;;
        by_ <- bound_or (ask ax (Axes.get_bound Y)) ybound ;;
        call ax (Axes.set_bound Y by_) ;;
        lx <- axis_label label_prefix axes 0 ;;
        fx <- lift (as_fontsize label_fontsize) ;;
        call ax (Axes.set_label X lx fx) ;;
        ly <- axis_label label_prefix axes 1 ;;
        fy <- lift (as_fontsize label_fontsize) ;;
        call ax (Axes.set_label Y ly fy) ;;
        ret (fig, ax)
      else
        ax <- Axes3D fig ;;
        a0 <- lift (subscript axes 0) ;;
        x <- lift (take_column A a0) ;;
        a1 <- lift (subscript axes 1) ;;
        y <- lift (take_column A a1) ;;
        a2 <- lift (subscript axes 2) ;;
        z <- lift (take_column A a2) ;;
        call ax (Axes.scatter x y (Some z) s c) ;;
        bx <- bound_or (ask ax (Axes.get_bound X)) xbound ;;
        call ax (Axes.set_bound X bx) ;;
        by_ <- bound_or (ask ax (Axes.get_bound Y)) ybound ;;
        call ax (Axes.set_bound Y by_) ;;
        bz <- bound_or (ask ax (Axes.get_bound Z_)) zbound ;;
        call ax (Axes.set_bound Z_ bz) ;;
        lx <- axis_label label_prefix axes 0 ;;
        fx <- lift (as_fontsize label_fontsize) ;;
        call ax (Axes.set_label X lx fx) ;;
        ly <- axis_label label_prefix axes 1 ;;
        fy <- lift (as_fontsize label_fontsize) ;;
        call ax (Axes.set_label Y ly fy) ;;
        lz <- axis_label label_prefix axes 2 ;;
        fz <- lift (as_fontsize label_fontsize) ;;
        call ax (Axes.set_label Z_ lz fz) ;;
        call ax (Axes.set_rotate_label X false) ;;
        call ax (Axes.set_rotate_label Y false) ;;
        call ax (Axes.set_rotate_label Z_ false) ;;
        e1 <- lift (subscript euler 1) ;;
        e0 <- lift (subscript euler 0) ;;
        elev <- lift (as_angle e1) ;;
        azim <- lift (as_angle e0) ;;
        call ax (Axes.view_init elev azim) ;;
        ret (fig, ax)
  | None =>
      raise (TypeError "A valid `matplotlib.pyplot` object must be provided.")
  end.

(** The names of the keyword options [plot] reads. *)
Definition option_names : list string :=
  ["label_prefix"; "label_fontsize"; "axes"; "euler";
   "xbound"; "ybound"; "zbound"; "title"].

(** ** Inputs on which [plot] goes through

    The contract of a call with the engine [plt]: the option values have the
    documented types, the columns selected by [axes] exist in [A], the label
    template formats their one-based numbers, and the engine refuses none
    of the values the call hands it: the sizes and colours together with
    the selected columns, the font size of the labels, the integers of the
    bounds.  [shown] is the number of columns displayed, two on a 2-D axes
    and three on a 3-D one. *)

Definition shown (A : ndarray) : nat :=
  if (ncols A <? 3)%nat then 2%nat else 3%nat.

(** [A[:, axes[i]]] *)
Definition selected (A : ndarray) (axes : pyval) (i : nat)
  : result (list num) :=
  rbind (subscript axes i) (take_column A).

Definition index_ok (A : ndarray) (label_prefix : pyval) (r : result pyval)
  : bool :=
  match r with
  | Ok (VInt j) =>
      (- Z.of_nat (ncols A) <=? j) && (j <? Z.of_nat (ncols A)) &&
      match format label_prefix (VInt (j + 1)) with
      | Ok _ => true
      | _ => false
      end
  | _ => false
  end.

(** The engine raised nothing. *)
Definition accepts (o : option exn) : bool :=
  match o with
  | None => true
  | Some _ => false
  end.

(** The engine draws the selected columns with the sizes [s] and the
    colours [c]. *)
Definition style_ok (A : ndarray) (plt : pyplot) (s : marker_size) (c : color)
    (axes : pyval) : bool :=
  match selected A axes 0, selected A axes 1 with
  | Ok x, Ok y =>
      if (ncols A <? 3)%nat then accepts (scatter_error plt x y None s c)
      else
        match selected A axes 2 with
        | Ok z => accepts (scatter_error plt x y (Some z) s c)
        | _ => false
        end
  | _, _ => false
  end.

(** A bound option: [None], or a pair of integers the engine has numbers
    for. *)
Definition bound_ok (plt : pyplot) (v : pyval) : bool :=
  is_None v ||
  match Axes.as_bound plt (Given v) with
  | Ok _ => true
  | _ => false
  end.

Definition title_ok (v : pyval) : bool :=
  match v with
  | VNone | VStr _ => true
  | _ => false
  end.

(** A font size: a name or a number of points that the engine takes. *)
Definition fontsize_ok (plt : pyplot) (v : pyval) : bool :=
  match as_fontsize v with
  | Ok fs => accepts (fontsize_error plt fs)
  | _ => false
  end.

Definition euler_ok (v : pyval) : bool :=
  match v with
  | VTuple (_ :: _ :: _) => true
  | _ => false
  end.

Definition well_formed (A : ndarray) (plt : pyplot) (s : marker_size)
    (c : color) (kwargs : gmap string pyval) : bool :=
  let label_prefix := kwarg kwargs "label_prefix" (VStr "$f_{:d}$") in
  let axes := kwarg kwargs "axes" (VTuple [0; 1; 2]) in
  forallb (fun i => index_ok A label_prefix (subscript axes i))
          (seq 0 (shown A)) &&
  style_ok A plt s c axes &&
  fontsize_ok plt (kwarg kwargs "label_fontsize" (VStr "large")) &&
  bound_ok plt (kwarg kwargs "xbound" VNone) &&
  bound_ok plt (kwarg kwargs "ybound" VNone) &&
  title_ok (kwarg kwargs "title" VNone) &&
  ((ncols A <? 3)%nat ||
   bound_ok plt (kwarg kwargs "zbound" VNone) &&
   euler_ok (kwarg kwargs "euler" (VTuple [-60; 30]))).

(** The option that bounds an axis, and the position in [axes] of the
    column drawn along it. *)
Definition bound_key (d : axis) : string :=
  match d with
  | X => "xbound"
  | Y => "ybound"
  | Z_ => "zbound"
  end.

Definition axis_pos (d : axis) : nat :=
  match d with
  | X => 0%nat
  | Y => 1%nat
  | Z_ => 2%nat
  end.

(** ** Vocabulary of the statements *)

(** The world [w] extended with one figure and one axes, the objects [plot]
    creates and works on. *)
Definition stage (w : world) (f : figure_obj) (a : axes_obj) : world :=
  {| module_camera_angles := module_camera_angles w;
     figures := figures w ++ [f];
     axes_objs := axes_objs w ++ [a] |}.

Definition new_fig (plt : pyplot) (title : option string) (axs : list nat)
  : figure_obj :=
  {| fig_engine := plt; fig_suptitle := title; fig_axes := axs |}.

(** The title the figure gets: the text of the [title] option, if any. *)
Definition title_text (title : pyval) : option string :=
  match title with
  | VStr t => Some t
  | _ => None
  end.

(** The kind of axes [plot] creates for [A]. *)
Definition kind_for (A : ndarray) : axes_kind :=
  if (ncols A <? 3)%nat then Axes2D else Axes3D_.

(** The axes a new figure lists once [plot] created the axes [ax] of kind
    [k] for it: a 2-D axes comes from the figure itself, a 3-D axes is
    listed when the engine adds it. *)
Definition registered (plt : pyplot) (k : axes_kind) (ax : nat) : list nat :=
  match k with
  | Axes2D => [ax]
  | Axes3D_ => if auto_add_to_figure plt then [ax] else []
  end.

(** The pair of numbers a bound setter works with when the option holds
    [v] and the axis has the limits [cur]: the numbers of the option's
    pair, or the current bound when the option is [None]. *)
Definition requested (plt : pyplot) (v : pyval) (cur : bound) : result bound :=
  Axes.as_bound plt
    (if is_None v then Floats (Axes.ordered cur) else Given v).

(** The axes once a bound setter of the axis [d], whose limits were [old],
    worked with the pair [b]. *)
Definition bounded (d : axis) (b old : bound) (a : axes_obj) : axes_obj :=
  Axes.with_limits
    (<[d := Some (Axes.placed (settle (ax_engine a) d) old b)]> (ax_limits a))
    a.

(** The engine stores the interval [b] as it is requested: it does not
    widen it. *)
Definition kept (plt : pyplot) (d : axis) (b : bound) : Prop :=
  settle plt d (Axes.ordered b) = Axes.ordered b.

(** The column drawn along an axis. *)
Definition along {T} (x y z : T) (d : axis) : T :=
  match d with
  | X => x
  | Y => y
  | Z_ => z
  end.

(** The axes object [plot] leaves behind in the 2-D branch and in the 3-D
    branch, from the values it resolved. *)
Definition flat_axes (plt : pyplot) (fig : nat) (s : marker_size) (c : color)
    (x y : list num) (bx by_ : bound) (lx ly : string) (fs : fontsize)
  : axes_obj :=
  Axes.labelled Y ly fs
    (Axes.labelled X lx fs
       (bounded Y by_ (autoscale plt Y y (fresh_limits plt Y))
          (bounded X bx (autoscale plt X x (fresh_limits plt X))
             (Axes.scattered x y None s c (Axes.fresh plt fig Axes2D))))).

Definition spatial_axes (plt : pyplot) (fig : nat) (s : marker_size)
    (c : color) (x y z : list num) (bx by_ bz : bound) (lx ly lz : string)
    (fs : fontsize) (elev azim : Z) : axes_obj :=
  Axes.with_view (Some (elev, azim))
    (Axes.rotated Z_ false
       (Axes.rotated Y false
          (Axes.rotated X false
             (Axes.labelled Z_ lz fs
                (Axes.labelled Y ly fs
                   (Axes.labelled X lx fs
                      (bounded Z_ bz (autoscale plt Z_ z (fresh_limits plt Z_))
                         (bounded Y by_ (autoscale plt Y y (fresh_limits plt Y))
                            (bounded X bx
                               (autoscale plt X x (fresh_limits plt X))
                               (Axes.scattered x y (Some z) s c
                                  (Axes.fresh plt fig Axes3D_))))))))))).

(** A computation is blind to the table bound to [camera_angles] when
    running it under another table gives the same outcome and the same
    objects, and leaves that other table in place. *)
Definition blind {T} (m : M T) : Prop :=
  forall t w, m (set_camera_angles t w) = ((m w).1, set_camera_angles t (m w).2).

(** A computation works on the newest axes only, seen from [w], when, run
    in [w] extended with a figure and an axes, it leaves [w] and the figure
    as they are whatever its outcome: at most the added axes changes. *)
Definition local_at {T} (w : world) (m : M T) : Prop :=
  forall f a, exists a', (m (stage w f a)).2 = stage w f a'.

(** The world right after [plot] created its figure, titled it and created
    its axes: nothing is drawn yet. *)
Definition opened (A : ndarray) (plt : pyplot) (title : pyval) (w : world)
  : world :=
  stage w
    (new_fig plt (title_text title)
       (registered plt (kind_for A) (length (axes_objs w))))
    (Axes.fresh plt (length (figures w)) (kind_for A)).

(** The coordinates one scatter call received along an axis. *)
Definition sc_along (d : axis) (sc : scatter_call) : option (list num) :=
  match d with
  | X => Some (sc_x sc)
  | Y => Some (sc_y sc)
  | Z_ => sc_z sc
  end.

(** A template without braces: it has no replacement field and no escape. *)
Fixpoint brace_free (t : string) : bool :=
  match t with
  | EmptyString => true
  | String ch r =>
      negb (Ascii.eqb ch "{") && negb (Ascii.eqb ch "}") && brace_free r
  end.

(** The keyword options with the defaults [plot] gives them. *)
Definition defaults : list (string * pyval) :=
  [("label_prefix", VStr "$f_{:d}$"); ("label_fontsize", VStr "large");
   ("axes", VTuple [0; 1; 2]); ("euler", VTuple [-60; 30]);
   ("xbound", VNone); ("ybound", VNone); ("zbound", VNone);
   ("title", VNone)].

(** ** Sample inputs *)

(** The size names and the colour names of the sample engine. *)
Definition sample_sizes : list string :=
  ["xx-small"; "x-small"; "small"; "medium"; "large"; "x-large"; "xx-large";
   "larger"; "smaller"].

Definition sample_colors : list string :=
  ["#1f77b4"; "tab:blue"; "tab:orange"; "black"; "red"].

(** A small engine for the examples.  Its fresh axes span [0, 1] and it
    does not rescale; a 3-D axes is not added to its figure; per-point sizes
    and colours must be as many as the points and a colour name must be
    one it knows, a size name likewise, otherwise it raises [ValueError];
    it has a number for the integers up to [2 ^ 53] in absolute value and
    raises [TypeError] for the others; an interval reduced to one point is
    widened by a twentieth of the point on either side. *)
Definition sample_plt : pyplot :=
  {| fresh_limits := fun _ => (0%Qc, 1%Qc);
     autoscale := fun _ _ b => b;
     fresh_view := (30, -60);
     auto_add_to_figure := false;
     scatter_error := fun x _ _ s c =>
       let sizes_ok :=
         match s with
         | SizeScalar _ => true
         | SizeArray vs => (length vs =? length x)%nat
         end in
       let colors_ok :=
         match c with
         | ColorSpec name => existsb (String.eqb name) sample_colors
         | ColorArray rgba => (length rgba =? length x)%nat
         end in
       if sizes_ok && colors_ok then None else Some ValueError;
     fontsize_error := fun fs =>
       match fs with
       | FontName name =>
           if existsb (String.eqb name) sample_sizes then None
           else Some ValueError
       | FontPoints _ => None
       end;
     num_of_int := fun n =>
       if Z.abs n <=? 2 ^ 53 then Ok (Qc_of_Z n)
       else Raise (TypeError "int too large to convert to float");
     settle := fun _ b =>
       if bool_decide (b.1 = b.2) then
         let margin :=
           if bool_decide (b.1 = 0%Qc) then Q2Qc (1 # 20)
           else if bool_decide (0 < b.1)%Qc then (b.1 * Q2Qc (1 # 20))%Qc
           else (- b.1 * Q2Qc (1 # 20))%Qc in
         ((b.1 - margin)%Qc, (b.2 + margin)%Qc)
       else b |}.

(** Two points with [m] coordinates each. *)
Definition sample_points (m : nat) : ndarray :=
  {| nrows := 2; ncols := m; cell := fun i j => Qc_of_Z (Z.of_nat (i + j)) |}.

(** * Properties *)

(** ** The monad *)

Lemma bind_run {A B} (m : M A) (k : A -> M B) w a w' :
  m w = (Ok a, w') -> bind m k w = k a w'.
Proof. intros H. unfold bind. now rewrite H. Qed.

Lemma bind_raise {A B} (m : M A) (k : A -> M B) w e w' :
  m w = (Raise e, w') -> bind m k w = (Raise e, w').
Proof. intros H. unfold bind. now rewrite H. Qed.

Lemma bind_lift {A B} (r : result A) (k : A -> M B) w a :
  r = Ok a -> bind (lift r) k w = k a w.
Proof. intros ->. reflexivity. Qed.

(** ** The missing engine handle *)

(** C1: whatever the points, the style and the options, [plot] called with
    [None] for the engine handle raises the [TypeError] of the source (its
    missing-argument error), and the world is left as it was: no figure and
    no axes is created, nothing is changed. *)
Theorem plot_without_engine (A : ndarray) (s : marker_size) (c : color)
    (kwargs : gmap string pyval) (w : world) :
  plot A None s c kwargs w =
    (Raise (TypeError "A valid `matplotlib.pyplot` object must be provided."),
     w).
Proof. reflexivity. Qed.

(** ** Running calls on the newest objects *)

Lemma lookup_last {T} (l : list T) (x : T) : (l ++ [x]) !! length l = Some x.
Proof. now rewrite list_lookup_middle. Qed.

Lemma insert_last {T} (l : list T) (x y : T) :
  <[length l := y]> (l ++ [x]) = l ++ [y].
Proof.
  rewrite insert_app_r_alt by lia. now rewrite Nat.sub_diag.
Qed.

Lemma call_stage w f a method :
  call (length (axes_objs w)) method (stage w f a) =
    match method a with
    | Ok a' => (Ok tt, stage w f a')
    | Raise e => (Raise e, stage w f a)
    | Beyond => (Beyond, stage w f a)
    end.
Proof.
  unfold call, stage; simpl. rewrite lookup_last.
  destruct (method a); try reflexivity.
  unfold set_axes_objs; simpl. now rewrite insert_last.
Qed.

Lemma ask_stage {B} w f a (method : axes_obj -> result B) :
  ask (length (axes_objs w)) method (stage w f a) = (method a, stage w f a).
Proof. unfold ask, stage; simpl. now rewrite lookup_last. Qed.

Lemma suptitle_last t fs xs plt o t' :
  suptitle (length fs) t'
    {| module_camera_angles := t; figures := fs ++ [new_fig plt o []];
       axes_objs := xs |} =
  (Ok tt, {| module_camera_angles := t;
             figures := fs ++ [new_fig plt (Some t') []];
             axes_objs := xs |}).
Proof.
  unfold suptitle, bind, read_figure, write_figure, set_figures; simpl.
  rewrite lookup_last. simpl. now rewrite insert_last.
Qed.

Lemma add_axes_last t fs xs plt o k register :
  add_axes (length fs) k register
    {| module_camera_angles := t; figures := fs ++ [new_fig plt o []];
       axes_objs := xs |} =
  (Ok (length xs),
   {| module_camera_angles := t;
      figures :=
        fs ++ [new_fig plt o (if register plt then [length xs] else [])];
      axes_objs := xs ++ [Axes.fresh plt (length fs) k] |}).
Proof.
  unfold add_axes, bind, read_figure, write_figure, new_axes, set_figures,
    set_axes_objs, ret; simpl.
  rewrite lookup_last. simpl. destruct (register plt); simpl.
  - now rewrite insert_last.
  - reflexivity.
Qed.

Lemma gca_last t fs xs plt o :
  gca (length fs)
    {| module_camera_angles := t; figures := fs ++ [new_fig plt o []];
       axes_objs := xs |} =
  (Ok (length xs),
   {| module_camera_angles := t;
      figures := fs ++ [new_fig plt o (registered plt Axes2D (length xs))];
      axes_objs := xs ++ [Axes.fresh plt (length fs) Axes2D] |}).
Proof.
  unfold gca, bind at 1, read_figure; simpl. rewrite lookup_last. simpl.
  apply (add_axes_last t fs xs plt o Axes2D (fun _ => true)).
Qed.

Lemma Axes3D_last t fs xs plt o :
  Axes3D (length fs)
    {| module_camera_angles := t; figures := fs ++ [new_fig plt o []];
       axes_objs := xs |} =
  (Ok (length xs),
   {| module_camera_angles := t;
      figures := fs ++ [new_fig plt o (registered plt Axes3D_ (length xs))];
      axes_objs := xs ++ [Axes.fresh plt (length fs) Axes3D_] |}).
Proof. apply add_axes_last. Qed.

(** Creating the figure, titling it and creating its axes with [mk], which
    is [gca] or [Axes3D]. *)
Lemma open_figure {B} plt title k (mk : nat -> M nat)
    (rest : nat -> nat -> M B) w :
  (forall t fs xs o,
     mk (length fs)
       {| module_camera_angles := t; figures := fs ++ [new_fig plt o []];
          axes_objs := xs |} =
     (Ok (length xs),
      {| module_camera_angles := t;
         figures := fs ++ [new_fig plt o (registered plt k (length xs))];
         axes_objs := xs ++ [Axes.fresh plt (length fs) k] |})) ->
  title_ok title = true ->
  (fig <- figure plt ;;
   (if is_None title then ret tt
    else t <- lift (as_text title) ;; suptitle fig t) ;;
   ax <- mk fig ;;
   rest fig ax) w =
  rest (length (figures w)) (length (axes_objs w))
    (stage w
       (new_fig plt (title_text title)
          (registered plt k (length (axes_objs w))))
       (Axes.fresh plt (length (figures w)) k)).
Proof.
  intros Hmk Ht. destruct w as [t fs xs].
  unfold bind at 1, figure, new_figure, set_figures; simpl.
  change {| fig_engine := plt; fig_suptitle := None; fig_axes := [] |}
    with (new_fig plt None []).
  destruct title; try discriminate; simpl.
  - unfold bind at 1, ret. unfold bind at 1. now rewrite Hmk.
  - unfold bind at 1. unfold bind at 1, lift.
    rewrite suptitle_last. unfold bind at 1. now rewrite Hmk.
Qed.

Lemma bind_call_stage {B} w f a method (k : unit -> M B) :
  bind (call (length (axes_objs w)) method) k (stage w f a) =
    match method a with
    | Ok a' => k tt (stage w f a')
    | Raise e => (Raise e, stage w f a)
    | Beyond => (Beyond, stage w f a)
    end.
Proof. unfold bind. rewrite call_stage. now destruct (method a). Qed.

Lemma bind_bound_or_stage {B} w f a d v (k : bound_arg -> M B) :
  bind (bound_or (ask (length (axes_objs w)) (Axes.get_bound d)) v) k
    (stage w f a) =
    if is_None v then
      match Axes.get_bound d a with
      | Ok b => k (Floats b) (stage w f a)
      | Raise e => (Raise e, stage w f a)
      | Beyond => (Beyond, stage w f a)
      end
    else k (Given v) (stage w f a).
Proof.
  unfold bound_or. destruct (is_None v); [|reflexivity].
  unfold bind. rewrite ask_stage. now destruct (Axes.get_bound d a).
Qed.

Lemma bind_axis_label {B} label_prefix axes i j txt (k : string -> M B) w :
  subscript axes i = Ok (VInt j) ->
  format label_prefix (VInt (j + 1)) = Ok txt ->
  bind (axis_label label_prefix axes i) k w = k txt w.
Proof.
  intros Hs Hf. unfold format in Hf. unfold axis_label.
  destruct (format_method label_prefix) as [fmt| |]; try discriminate.
  simpl in Hf. unfold bind, lift. rewrite Hs. simpl. now rewrite Hf.
Qed.

(** ** What [well_formed] gives *)

Lemma index_ok_inv A p r :
  index_ok A p r = true ->
  exists j x txt,
    r = Ok (VInt j) /\ take_column A (VInt j) = Ok x /\
    format p (VInt (j + 1)) = Ok txt.
Proof.
  unfold index_ok. destruct r as [[|j| |]| |]; try discriminate.
  intros H. apply andb_prop in H as [H Hf]. apply andb_prop in H as [Hlo Hhi].
  destruct (format p (VInt (j + 1))) as [txt| |] eqn:E; try discriminate.
  exists j. unfold take_column.
  destruct ((0 <=? j) && (j <? Z.of_nat (ncols A))) eqn:E1.
  - eauto.
  - assert ((- Z.of_nat (ncols A) <=? j) && (j <? 0) = true) as ->.
    { apply andb_false_iff in E1. apply andb_true_intro. split; [exact Hlo|].
      destruct E1 as [E1|E1]; [|congruence].
      apply Z.ltb_lt. apply Z.leb_gt in E1. exact E1. }
    eauto.
Qed.

Lemma fontsize_ok_inv plt v :
  fontsize_ok plt v = true ->
  exists fs, as_fontsize v = Ok fs /\ fontsize_error plt fs = None.
Proof.
  unfold fontsize_ok. destruct (as_fontsize v) as [fs| |]; try discriminate.
  destruct (fontsize_error plt fs) eqn:E; try discriminate. eauto.
Qed.

Lemma bound_ok_inv plt v cur :
  bound_ok plt v = true -> exists b, requested plt v cur = Ok b.
Proof.
  unfold bound_ok, requested. destruct (is_None v).
  - intros _. simpl. eauto.
  - cbn [orb].
    destruct (Axes.as_bound plt (Given v)) as [b| |]; try discriminate. eauto.
Qed.

Lemma ordered_idem b : Axes.ordered (Axes.ordered b) = Axes.ordered b.
Proof.
  destruct b as [lo hi]. unfold Axes.ordered; simpl.
  destruct (bool_decide (lo < hi)%Qc) eqn:E; simpl; [now rewrite E|].
  destruct (bool_decide (hi < lo)%Qc) eqn:E'; simpl; [reflexivity|].
  apply bool_decide_eq_false in E, E'.
  assert (lo = hi) as ->; [|reflexivity].
  apply Qcle_antisym; apply Qcnot_lt_le; assumption.
Qed.

Lemma ordered_swap b : Axes.ordered (b.2, b.1) = Axes.ordered b.
Proof.
  destruct b as [lo hi]. unfold Axes.ordered; simpl.
  destruct (bool_decide (lo < hi)%Qc) eqn:E;
    destruct (bool_decide (hi < lo)%Qc) eqn:E'; simpl; try reflexivity.
  - apply bool_decide_eq_true in E, E'.
    exfalso. apply (Qclt_not_le _ _ E). now apply Qclt_le_weak.
  - apply bool_decide_eq_false in E, E'.
    assert (lo = hi) as ->; [|reflexivity].
    apply Qcle_antisym; apply Qcnot_lt_le; assumption.
Qed.

Section WellFormed.

Variables (A : ndarray) (plt : pyplot) (s : marker_size) (c : color).
Variable kwargs : gmap string pyval.

Local Notation label_prefix := (kwarg kwargs "label_prefix" (VStr "$f_{:d}$")) (only parsing).
Local Notation axes := (kwarg kwargs "axes" (VTuple [0; 1; 2])) (only parsing).

Hypothesis Hwf : well_formed A plt s c kwargs = true.

Lemma well_formed_common :
  style_ok A plt s c axes = true /\
  fontsize_ok plt (kwarg kwargs "label_fontsize" (VStr "large")) = true /\
  bound_ok plt (kwarg kwargs "xbound" VNone) = true /\
  bound_ok plt (kwarg kwargs "ybound" VNone) = true /\
  title_ok (kwarg kwargs "title" VNone) = true.
Proof.
  unfold well_formed in Hwf. rewrite !andb_true_iff in Hwf. tauto.
Qed.

Lemma well_formed_index i :
  (i < shown A)%nat -> index_ok A label_prefix (subscript axes i) = true.
Proof.
  intros Hi. unfold well_formed in Hwf. rewrite !andb_true_iff in Hwf.
  destruct Hwf as [[[[[[Hall _] _] _] _] _] _].
  rewrite forallb_forall in Hall. apply Hall. apply in_seq. lia.
Qed.

Lemma well_formed_spatial :
  (3 <= ncols A)%nat ->
  bound_ok plt (kwarg kwargs "zbound" VNone) = true /\
  euler_ok (kwarg kwargs "euler" (VTuple [-60; 30])) = true.
Proof.
  intros Hc. unfold well_formed in Hwf. rewrite !andb_true_iff in Hwf.
  destruct Hwf as [_ Hz]. apply orb_true_iff in Hz as [Hz|Hz].
  - apply Nat.ltb_lt in Hz. lia.
  - now apply andb_true_iff in Hz.
Qed.

End WellFormed.

(** *** The steps of [plot] on the axes it created *)

Lemma bind_call_ok {B} w f a a' method (k : unit -> M B) :
  method a = Ok a' ->
  bind (call (length (axes_objs w)) method) k (stage w f a) =
  k tt (stage w f a').
Proof. intros H. now rewrite bind_call_stage, H. Qed.

Lemma bind_scatter_stage {B} w f a x y (zs : option (list num)) s c
    (k : unit -> M B) :
  ax_kind a = match zs with Some _ => Axes3D_ | None => Axes2D end ->
  scatter_error (ax_engine a) x y zs s c = None ->
  bind (call (length (axes_objs w)) (Axes.scatter x y zs s c)) k
    (stage w f a) =
  k tt (stage w f (Axes.scattered x y zs s c a)).
Proof.
  intros Hk He. apply bind_call_ok. unfold Axes.scatter. rewrite Hk, He.
  now destruct zs.
Qed.

Lemma bind_bound_stage {B} w f a d v old b (k : unit -> M B) :
  ax_limits a d = Some old ->
  requested (ax_engine a) v old = Ok b ->
  (arg <- bound_or (ask (length (axes_objs w)) (Axes.get_bound d)) v ;;
   bind (call (length (axes_objs w)) (Axes.set_bound d arg)) k) (stage w f a) =
  k tt (stage w f (bounded d b old a)).
Proof.
  intros Hold Hb. rewrite bind_bound_or_stage. unfold requested in Hb.
  unfold Axes.get_bound. rewrite Hold.
  destruct (is_None v); apply bind_call_ok; unfold Axes.set_bound;
    rewrite Hold, Hb; reflexivity.
Qed.

Lemma bind_label_stage {B} w f a d p axes i j txt v fs (k : unit -> M B) :
  subscript axes i = Ok (VInt j) ->
  format p (VInt (j + 1)) = Ok txt ->
  as_fontsize v = Ok fs ->
  fontsize_error (ax_engine a) fs = None ->
  (ax_kind a = Axes3D_ \/ d <> Z_) ->
  (l <- axis_label p axes i ;;
   fz <- lift (as_fontsize v) ;;
   bind (call (length (axes_objs w)) (Axes.set_label d l fz)) k)
    (stage w f a) =
  k tt (stage w f (Axes.labelled d txt fs a)).
Proof.
  intros Hs Hf Hv He Hk. rewrite (bind_axis_label _ _ _ _ _ _ _ Hs Hf).
  rewrite (bind_lift _ _ _ _ Hv). apply bind_call_ok.
  unfold Axes.set_label. rewrite He.
  destruct (ax_kind a), d; try reflexivity. destruct Hk; congruence.
Qed.

Lemma bind_rotate_stage {B} w f a d b (k : unit -> M B) :
  ax_kind a = Axes3D_ ->
  bind (call (length (axes_objs w)) (Axes.set_rotate_label d b)) k
    (stage w f a) =
  k tt (stage w f (Axes.rotated d b a)).
Proof.
  intros Hk. apply bind_call_ok. unfold Axes.set_rotate_label.
  now rewrite Hk.
Qed.

Lemma bind_view_stage {B} w f a elev azim (k : unit -> M B) :
  ax_kind a = Axes3D_ ->
  bind (call (length (axes_objs w)) (Axes.view_init elev azim)) k
    (stage w f a) =
  k tt (stage w f (Axes.with_view (Some (elev, azim)) a)).
Proof.
  intros Hk. apply bind_call_ok. unfold Axes.view_init. now rewrite Hk.
Qed.

Lemma euler_ok_inv v :
  euler_ok v = true ->
  exists az el, subscript v 0 = Ok (VInt az) /\ subscript v 1 = Ok (VInt el).
Proof.
  destruct v as [| | |[|az [|el rest]]]; try discriminate. simpl; eauto.
Qed.

Lemma selected_column A axes i j x :
  subscript axes i = Ok (VInt j) -> take_column A (VInt j) = Ok x ->
  selected A axes i = Ok x.
Proof. intros Hs Hx. unfold selected. now rewrite Hs. Qed.

Lemma accepts_inv o : accepts o = true -> o = None.
Proof. now destruct o. Qed.

Section Run.

Variables (A : ndarray) (plt : pyplot) (s : marker_size) (c : color).
Variables (kwargs : gmap string pyval) (w : world).

Local Notation label_prefix := (kwarg kwargs "label_prefix" (VStr "$f_{:d}$")) (only parsing).
Local Notation label_fontsize := (kwarg kwargs "label_fontsize" (VStr "large")) (only parsing).
Local Notation axes := (kwarg kwargs "axes" (VTuple [0; 1; 2])) (only parsing).
Local Notation euler := (kwarg kwargs "euler" (VTuple [-60; 30])) (only parsing).
Local Notation xbound := (kwarg kwargs "xbound" VNone) (only parsing).
Local Notation ybound := (kwarg kwargs "ybound" VNone) (only parsing).
Local Notation zbound := (kwarg kwargs "zbound" VNone) (only parsing).
Local Notation title := (kwarg kwargs "title" VNone) (only parsing).
Local Notation cur d data := (autoscale plt d data (fresh_limits plt d)) (only parsing).

Hypothesis Hwf : well_formed A plt s c kwargs = true.

(** The 2-D branch, run to its end. *)
Lemma plot_flat :
  (ncols A < 3)%nat ->
  exists i0 i1 x y bx by_ lx ly fs,
    subscript axes 0 = Ok (VInt i0) /\ take_column A (VInt i0) = Ok x /\
    subscript axes 1 = Ok (VInt i1) /\ take_column A (VInt i1) = Ok y /\
    requested plt xbound (cur X x) = Ok bx /\
    requested plt ybound (cur Y y) = Ok by_ /\
    format label_prefix (VInt (i0 + 1)) = Ok lx /\
    format label_prefix (VInt (i1 + 1)) = Ok ly /\
    as_fontsize label_fontsize = Ok fs /\
    plot A (Some plt) s c kwargs w =
      (Ok (length (figures w), length (axes_objs w)),
       stage w (new_fig plt (title_text title) [length (axes_objs w)])
         (flat_axes plt (length (figures w)) s c x y bx by_ lx ly fs)).
Proof.
  intros Hcols.
  assert (Hc : (ncols A <? 3)%nat = true) by now apply Nat.ltb_lt.
  assert (Hsh : shown A = 2%nat) by (unfold shown; now rewrite Hc).
  destruct (well_formed_common _ _ _ _ _ Hwf) as (Hst & Hfs & Hxb & Hyb & Ht).
  destruct (index_ok_inv _ _ _ (well_formed_index _ _ _ _ _ Hwf 0%nat ltac:(lia)))
    as (i0 & x & lx & Ha0 & Hx & Hlx).
  destruct (index_ok_inv _ _ _ (well_formed_index _ _ _ _ _ Hwf 1%nat ltac:(lia)))
    as (i1 & y & ly & Ha1 & Hy & Hly).
  apply fontsize_ok_inv in Hfs as (fs & Hfs & Hfe).
  destruct (bound_ok_inv _ _ (cur X x) Hxb) as [bx Hbx].
  destruct (bound_ok_inv _ _ (cur Y y) Hyb) as [by_ Hby].
  unfold style_ok in Hst.
  rewrite (selected_column _ _ _ _ _ Ha0 Hx), (selected_column _ _ _ _ _ Ha1 Hy),
    Hc in Hst.
  apply accepts_inv in Hst.
  exists i0, i1, x, y, bx, by_, lx, ly, fs. repeat (split; [assumption|]).
  unfold plot. rewrite Hc.
  rewrite (open_figure plt _ Axes2D gca); [|intros; apply gca_last|assumption].
  rewrite (bind_lift _ _ _ _ Ha0), (bind_lift _ _ _ _ Hx).
  rewrite (bind_lift _ _ _ _ Ha1), (bind_lift _ _ _ _ Hy).
  rewrite bind_scatter_stage; [|reflexivity|exact Hst].
  erewrite bind_bound_stage; [|reflexivity|exact Hbx].
  erewrite bind_bound_stage; [|reflexivity|exact Hby].
  erewrite bind_label_stage; [|eassumption|eassumption|eassumption|exact Hfe|now right].
  erewrite bind_label_stage; [|eassumption|eassumption|eassumption|exact Hfe|now right].
  reflexivity.
Qed.

(** The 3-D branch, run to its end. *)
Lemma plot_spatial :
  (3 <= ncols A)%nat ->
  exists i0 i1 i2 x y z bx by_ bz lx ly lz fs az el,
    subscript axes 0 = Ok (VInt i0) /\ take_column A (VInt i0) = Ok x /\
    subscript axes 1 = Ok (VInt i1) /\ take_column A (VInt i1) = Ok y /\
    subscript axes 2 = Ok (VInt i2) /\ take_column A (VInt i2) = Ok z /\
    requested plt xbound (cur X x) = Ok bx /\
    requested plt ybound (cur Y y) = Ok by_ /\
    requested plt zbound (cur Z_ z) = Ok bz /\
    format label_prefix (VInt (i0 + 1)) = Ok lx /\
    format label_prefix (VInt (i1 + 1)) = Ok ly /\
    format label_prefix (VInt (i2 + 1)) = Ok lz /\
    as_fontsize label_fontsize = Ok fs /\
    subscript euler 0 = Ok (VInt az) /\ subscript euler 1 = Ok (VInt el) /\
    plot A (Some plt) s c kwargs w =
      (Ok (length (figures w), length (axes_objs w)),
       stage w
         (new_fig plt (title_text title)
            (registered plt Axes3D_ (length (axes_objs w))))
         (spatial_axes plt (length (figures w)) s c x y z
            bx by_ bz lx ly lz fs el az)).
Proof.
  intros Hcols.
  assert (Hc : (ncols A <? 3)%nat = false) by (apply Nat.ltb_ge; lia).
  assert (Hsh : shown A = 3%nat) by (unfold shown; now rewrite Hc).
  destruct (well_formed_common _ _ _ _ _ Hwf) as (Hst & Hfs & Hxb & Hyb & Ht).
  destruct (well_formed_spatial _ _ _ _ _ Hwf Hcols) as (Hzb & He).
  destruct (index_ok_inv _ _ _ (well_formed_index _ _ _ _ _ Hwf 0%nat ltac:(lia)))
    as (i0 & x & lx & Ha0 & Hx & Hlx).
  destruct (index_ok_inv _ _ _ (well_formed_index _ _ _ _ _ Hwf 1%nat ltac:(lia)))
    as (i1 & y & ly & Ha1 & Hy & Hly).
  destruct (index_ok_inv _ _ _ (well_formed_index _ _ _ _ _ Hwf 2%nat ltac:(lia)))
    as (i2 & z & lz & Ha2 & Hz & Hlz).
  apply fontsize_ok_inv in Hfs as (fs & Hfs & Hfe).
  apply euler_ok_inv in He as (az & el & He0 & He1).
  destruct (bound_ok_inv _ _ (cur X x) Hxb) as [bx Hbx].
  destruct (bound_ok_inv _ _ (cur Y y) Hyb) as [by_ Hby].
  destruct (bound_ok_inv _ _ (cur Z_ z) Hzb) as [bz Hbz].
  unfold style_ok in Hst.
  rewrite (selected_column _ _ _ _ _ Ha0 Hx), (selected_column _ _ _ _ _ Ha1 Hy),
    (selected_column _ _ _ _ _ Ha2 Hz), Hc in Hst.
  apply accepts_inv in Hst.
  exists i0, i1, i2, x, y, z, bx, by_, bz, lx, ly, lz, fs, az, el.
  repeat (split; [assumption|]).
  unfold plot. rewrite Hc.
  rewrite (open_figure plt _ Axes3D_ Axes3D);
    [|intros; apply Axes3D_last|assumption].
  rewrite (bind_lift _ _ _ _ Ha0), (bind_lift _ _ _ _ Hx).
  rewrite (bind_lift _ _ _ _ Ha1), (bind_lift _ _ _ _ Hy).
  rewrite (bind_lift _ _ _ _ Ha2), (bind_lift _ _ _ _ Hz).
  rewrite bind_scatter_stage; [|reflexivity|exact Hst].
  erewrite bind_bound_stage; [|reflexivity|exact Hbx].
  erewrite bind_bound_stage; [|reflexivity|exact Hby].
  erewrite bind_bound_stage; [|reflexivity|exact Hbz].
  erewrite bind_label_stage; [|eassumption|eassumption|eassumption|exact Hfe|now left].
  erewrite bind_label_stage; [|eassumption|eassumption|eassumption|exact Hfe|now left].
  erewrite bind_label_stage; [|eassumption|eassumption|eassumption|exact Hfe|now left].
  rewrite bind_rotate_stage by reflexivity.
  rewrite bind_rotate_stage by reflexivity.
  rewrite bind_rotate_stage by reflexivity.
  rewrite (bind_lift _ _ _ _ He1), (bind_lift _ _ _ _ He0).
  rewrite (bind_lift (as_angle (VInt el)) _ _ el eq_refl).
  rewrite (bind_lift (as_angle (VInt az)) _ _ az eq_refl).
  rewrite bind_view_stage by reflexivity.
  reflexivity.
Qed.

End Run.

(** ** The objects [plot] leaves behind *)

Lemma ordered_le lo hi :
  (lo <= hi)%Qc -> Axes.ordered (lo, hi) = (lo, hi).
Proof.
  intros Hle. unfold Axes.ordered; simpl.
  destruct (bool_decide (lo < hi)%Qc) eqn:E; [reflexivity|].
  apply bool_decide_eq_false in E. apply Qcnot_lt_le in E.
  now rewrite (Qcle_antisym _ _ Hle E).
Qed.

Lemma ordered_placed st old b :
  Axes.ordered (Axes.placed st old b) = Axes.ordered (st (Axes.ordered b)).
Proof.
  unfold Axes.placed. destruct (Axes.inverted old); [|reflexivity].
  apply (ordered_swap (st (Axes.ordered b))).
Qed.

(** Handing an axis its own bound back leaves its limits as they are, when
    the engine keeps that interval. *)
Lemma placed_same st old :
  st (Axes.ordered old) = Axes.ordered old ->
  Axes.placed st old (Axes.ordered old) = old.
Proof.
  intros Hst. unfold Axes.placed. rewrite ordered_idem, Hst.
  destruct old as [lo hi]. unfold Axes.inverted, Axes.ordered; simpl.
  destruct (bool_decide (lo < hi)%Qc) eqn:E;
    destruct (bool_decide (hi < lo)%Qc) eqn:E'; simpl; try reflexivity.
  - apply bool_decide_eq_true in E, E'.
    exfalso. apply (Qclt_not_le _ _ E). now apply Qclt_le_weak.
  - apply bool_decide_eq_false in E, E'.
    assert (lo = hi) as ->; [|reflexivity].
    apply Qcle_antisym; apply Qcnot_lt_le; assumption.
Qed.

Lemma get_bound_limits d a b :
  ax_limits a d = Some b -> Axes.get_bound d a = Ok (Axes.ordered b).
Proof. intros H. unfold Axes.get_bound. now rewrite H. Qed.

Section FlatAxes.

Variables (plt : pyplot) (fig : nat) (s : marker_size) (c : color).
Variables (x y : list num) (bx by_ : bound) (lx ly : string) (fs : fontsize).

Local Notation a := (flat_axes plt fig s c x y bx by_ lx ly fs) (only parsing).


Lemma flat_scatter :
  ax_scatter a =
    [{| sc_x := x; sc_y := y; sc_z := None; sc_s := s; sc_c := c |}].
Proof. reflexivity. Qed.

Lemma flat_limits :
  ax_limits a X =
    Some (Axes.placed (settle plt X) (autoscale plt X x (fresh_limits plt X))
            bx) /\
  ax_limits a Y =
    Some (Axes.placed (settle plt Y) (autoscale plt Y y (fresh_limits plt Y))
            by_) /\
  ax_limits a Z_ = None.
Proof. repeat split; reflexivity. Qed.


End FlatAxes.

Section SpatialAxes.

Variables (plt : pyplot) (fig : nat) (s : marker_size) (c : color).
Variables (x y z : list num) (bx by_ bz : bound) (lx ly lz : string).
Variables (fs : fontsize) (elev azim : Z).

Local Notation a :=
  (spatial_axes plt fig s c x y z bx by_ bz lx ly lz fs elev azim)
  (only parsing).


Lemma spatial_scatter :
  ax_scatter a =
    [{| sc_x := x; sc_y := y; sc_z := Some z; sc_s := s; sc_c := c |}].
Proof. reflexivity. Qed.

Lemma spatial_limits d :
  ax_limits a d =
    Some (Axes.placed (settle plt d)
            (autoscale plt d (along x y z d) (fresh_limits plt d))
            (along bx by_ bz d)).
Proof. destruct d; reflexivity. Qed.

Lemma spatial_label d :
  ax_label a d =
    Some {| label_text := along lx ly lz d; label_size := fs |}.
Proof. destruct d; reflexivity. Qed.


Lemma spatial_view : ax_view a = Some (elev, azim).
Proof. reflexivity. Qed.

End SpatialAxes.

(** ** The default call *)

Lemma kwarg_empty key default : kwarg ∅ key default = default.
Proof. unfold kwarg. now rewrite lookup_empty. Qed.

Lemma well_formed_default A plt s c :
  (2 <= ncols A)%nat ->
  style_ok A plt s c (VTuple [0; 1; 2]) = true ->
  fontsize_error plt (FontName "large") = None ->
  well_formed A plt s c ∅ = true.
Proof.
  intros Hc Hst Hfs. unfold well_formed, shown. rewrite !kwarg_empty, Hst.
  unfold fontsize_ok. cbn [as_fontsize]. rewrite Hfs.
  assert (Hlo : forall j, 0 <= j -> (- Z.of_nat (ncols A) <=? j) = true)
    by (intros; apply Z.leb_le; lia).
  destruct (ncols A <? 3)%nat eqn:E; simpl; unfold index_ok; simpl.
  - rewrite !Hlo by lia.
    assert ((0 <? Z.of_nat (ncols A)) = true) as -> by (apply Z.ltb_lt; lia).
    assert ((1 <? Z.of_nat (ncols A)) = true) as -> by (apply Z.ltb_lt; lia).
    reflexivity.
  - apply Nat.ltb_ge in E. rewrite !Hlo by lia.
    assert ((0 <? Z.of_nat (ncols A)) = true) as -> by (apply Z.ltb_lt; lia).
    assert ((1 <? Z.of_nat (ncols A)) = true) as -> by (apply Z.ltb_lt; lia).
    assert ((2 <? Z.of_nat (ncols A)) = true) as -> by (apply Z.ltb_lt; lia).
    reflexivity.
Qed.

(** Every well-formed call with an engine returns references to a figure and
    an axes that exist in the resulting world. *)
Lemma plot_returns A plt s c kwargs w :
  well_formed A plt s c kwargs = true ->
  exists fig ax w' f a,
    plot A (Some plt) s c kwargs w = (Ok (fig, ax), w') /\
    figures w' !! fig = Some f /\ axes_objs w' !! ax = Some a.
Proof.
  intros Hwf. destruct (Nat.lt_ge_cases (ncols A) 3) as [Hc|Hc].
  - destruct (plot_flat A plt s c kwargs w Hwf Hc)
      as (i0 & i1 & x & y & bx & by_ & lx & ly & fs & H).
    do 9 (destruct H as [_ H]).
    do 5 eexists. split; [exact H|]. split; apply lookup_last.
  - destruct (plot_spatial A plt s c kwargs w Hwf Hc)
      as (i0 & i1 & i2 & x & y & z & bx & by_ & bz & lx & ly & lz & fs &
          az & el & H).
    do 15 (destruct H as [_ H]).
    do 5 eexists. split; [exact H|]. split; apply lookup_last.
Qed.

(** C2: for every point matrix with at least two columns and an engine
    handle that is not [None], [plot] with no keyword option returns a pair
    (figure, axes) of references to objects that exist: neither is null.
    The engine has to go along with the call: it draws the first columns
    with the given sizes and colours, and it knows the default font size
    ['large']. *)
Theorem plot_default_returns (A : ndarray) (plt : pyplot) (s : marker_size)
    (c : color) (w : world) :
  (2 <= ncols A)%nat ->
  style_ok A plt s c (VTuple [0; 1; 2]) = true ->
  fontsize_error plt (FontName "large") = None ->
  exists fig ax w' f a,
    plot A (Some plt) s c ∅ w = (Ok (fig, ax), w') /\
    figures w' !! fig = Some f /\ axes_objs w' !! ax = Some a.
Proof.
  intros Hc Hst Hfs. apply plot_returns. now apply well_formed_default.
Qed.

Lemma plot_default_returns_witness :
  exists fig ax w' f a,
    plot (sample_points 5) (Some sample_plt) default_s default_c ∅ loaded =
      (Ok (fig, ax), w') /\
    figures w' !! fig = Some f /\ axes_objs w' !! ax = Some a.
Proof.
  apply (plot_default_returns (sample_points 5) sample_plt);
    [simpl; lia | vm_compute; reflexivity | reflexivity].
Defined.

(** ** The two branches *)





(** ** Axis bounds *)

Lemma kwarg_lookup (kwargs : gmap string pyval) key default v :
  kwargs !! key = Some v -> kwarg kwargs key default = v.
Proof. intros H. unfold kwarg. now rewrite H. Qed.

(** The limits the returned axes has along [d], in terms of what the engine
    computed from the data and of the bound option of [d]. *)
Lemma plot_limits A plt s c kwargs w d :
  well_formed A plt s c kwargs = true ->
  (d = Z_ -> (3 <= ncols A)%nat) ->
  exists fig ax w' a i data b,
    plot A (Some plt) s c kwargs w = (Ok (fig, ax), w') /\
    axes_objs w' !! ax = Some a /\
    subscript (kwarg kwargs "axes" (VTuple [0; 1; 2])) (axis_pos d)
      = Ok (VInt i) /\
    take_column A (VInt i) = Ok data /\
    requested plt (kwarg kwargs (bound_key d) VNone)
      (autoscale plt d data (fresh_limits plt d)) = Ok b /\
    ax_limits a d =
      Some (Axes.placed (settle plt d)
              (autoscale plt d data (fresh_limits plt d)) b).
Proof.
  intros Hwf Hd. destruct (Nat.lt_ge_cases (ncols A) 3) as [Hc|Hc].
  - destruct (plot_flat A plt s c kwargs w Hwf Hc)
      as (i0 & i1 & x & y & bx & by_ & lx & ly & fs &
          Ha0 & Hx & Ha1 & Hy & Hbx & Hby & _ & _ & _ & Hrun).
    destruct d.
    + eexists _, _, _, _, i0, x, bx. split; [exact Hrun|].
      split; [apply lookup_last|]. repeat (split; [assumption|]).
      apply flat_limits.
    + eexists _, _, _, _, i1, y, by_. split; [exact Hrun|].
      split; [apply lookup_last|]. repeat (split; [assumption|]).
      apply flat_limits.
    + specialize (Hd eq_refl). lia.
  - destruct (plot_spatial A plt s c kwargs w Hwf Hc)
      as (i0 & i1 & i2 & x & y & z & bx & by_ & bz & lx & ly & lz & fs &
          az & el & Ha0 & Hx & Ha1 & Hy & Ha2 & Hz & Hbx & Hby & Hbz &
          _ & _ & _ & _ & _ & _ & Hrun).
    eexists _, _, _, _, (along i0 i1 i2 d), (along x y z d),
      (along bx by_ bz d).
    split; [exact Hrun|]. split; [apply lookup_last|].
    split; [destruct d; assumption|]. split; [destruct d; assumption|].
    split; [destruct d; assumption|].
    apply spatial_limits.
Qed.

Lemma requested_pair plt lo hi cur :
  num_of_int plt lo = Ok (Qc_of_Z lo) ->
  num_of_int plt hi = Ok (Qc_of_Z hi) ->
  requested plt (VTuple [lo; hi]) cur = Ok (Qc_of_Z lo, Qc_of_Z hi).
Proof. intros Hlo Hhi. unfold requested. simpl. now rewrite Hlo, Hhi. Qed.

(** C5: when [xbound], [ybound] or [zbound] is given as a (min, max) pair,
    the bound of that axis on the returned axes is exactly that pair;
    [zbound] counts in the 3-D branch only.  The pair is an interval,
    [min < max], of integers that the engine's numbers represent as they
    are, and that the engine does not widen. *)
Theorem provided_bound_applied (A : ndarray) (plt : pyplot) (s : marker_size)
    (c : color) (kwargs : gmap string pyval) (w : world) (d : axis)
    (lo hi : Z) :
  well_formed A plt s c kwargs = true ->
  (d = Z_ -> (3 <= ncols A)%nat) ->
  kwargs !! bound_key d = Some (VTuple [lo; hi]) ->
  lo < hi ->
  num_of_int plt lo = Ok (Qc_of_Z lo) ->
  num_of_int plt hi = Ok (Qc_of_Z hi) ->
  kept plt d (Qc_of_Z lo, Qc_of_Z hi) ->
  exists fig ax w' a,
    plot A (Some plt) s c kwargs w = (Ok (fig, ax), w') /\
    axes_objs w' !! ax = Some a /\
    Axes.get_bound d a = Ok (Qc_of_Z lo, Qc_of_Z hi).
Proof.
  intros Hwf Hd Hb Hlt Hlo Hhi Hkept.
  destruct (plot_limits A plt s c kwargs w d Hwf Hd)
    as (fig & ax & w' & a & i & data & b & Hrun & Hax & _ & _ & Hreq & Hl).
  exists fig, ax, w', a. split; [exact Hrun|]. split; [exact Hax|].
  rewrite (kwarg_lookup _ _ _ _ Hb), (requested_pair _ _ _ _ Hlo Hhi) in Hreq.
  injection Hreq as <-.
  rewrite (get_bound_limits _ _ _ Hl), ordered_placed.
  unfold kept in Hkept. rewrite Hkept, ordered_idem.
  rewrite ordered_le; [reflexivity|].
  apply Qclt_le_weak. exact (proj1 (Z2Qc_inj_lt lo hi) Hlt).
Qed.

Lemma provided_bound_applied_witness :
  exists fig ax w' a,
    plot (sample_points 4) (Some sample_plt) default_s default_c
      {["zbound" := VTuple [-2; 7]]} loaded = (Ok (fig, ax), w') /\
    axes_objs w' !! ax = Some a /\
    Axes.get_bound Z_ a = Ok (Qc_of_Z (-2), Qc_of_Z 7).
Proof.
  apply (provided_bound_applied (sample_points 4) sample_plt default_s
           default_c {["zbound" := VTuple [-2; 7]]} loaded Z_ (-2) 7);
    [vm_compute; reflexivity | simpl; lia | reflexivity | lia
    | reflexivity | reflexivity | vm_compute; reflexivity].
Defined.

(** C6: when [xbound], [ybound] or [zbound] is left unset (absent, or
    [None]), the limits of that axis on the returned axes are the ones the
    engine computed when it received the data: the bound is the engine's
    own.  [plot] hands the axis its current bound back; the engine keeps
    the limits it computed itself when they are requested again. *)
Theorem unset_bound_kept (A : ndarray) (plt : pyplot) (s : marker_size)
    (c : color) (kwargs : gmap string pyval) (w : world) (d : axis) :
  well_formed A plt s c kwargs = true ->
  (d = Z_ -> (3 <= ncols A)%nat) ->
  kwarg kwargs (bound_key d) VNone = VNone ->
  (forall data,
     selected A (kwarg kwargs "axes" (VTuple [0; 1; 2])) (axis_pos d)
       = Ok data ->
     kept plt d (autoscale plt d data (fresh_limits plt d))) ->
  exists fig ax w' a i data,
    plot A (Some plt) s c kwargs w = (Ok (fig, ax), w') /\
    axes_objs w' !! ax = Some a /\
    subscript (kwarg kwargs "axes" (VTuple [0; 1; 2])) (axis_pos d)
      = Ok (VInt i) /\
    take_column A (VInt i) = Ok data /\
    ax_limits a d = Some (autoscale plt d data (fresh_limits plt d)) /\
    Axes.get_bound d a =
      Ok (Axes.ordered (autoscale plt d data (fresh_limits plt d))).
Proof.
  intros Hwf Hd Hb Hkept.
  destruct (plot_limits A plt s c kwargs w d Hwf Hd)
    as (fig & ax & w' & a & i & data & b & Hrun & Hax & Hi & Hdata & Hreq & Hl).
  exists fig, ax, w', a, i, data. repeat (split; [assumption|]).
  rewrite Hb in Hreq. unfold requested in Hreq. simpl in Hreq.
  injection Hreq as <-.
  rewrite placed_same in Hl
    by exact (Hkept data (selected_column _ _ _ _ _ Hi Hdata)).
  split; [exact Hl|]. now apply get_bound_limits.
Qed.

Lemma unset_bound_kept_witness :
  exists fig ax w' a i data,
    plot (sample_points 2) (Some sample_plt) default_s default_c
      {["xbound" := VTuple [0; 3]]} loaded = (Ok (fig, ax), w') /\
    axes_objs w' !! ax = Some a /\
    subscript (kwarg {["xbound" := VTuple [0; 3]]} "axes" (VTuple [0; 1; 2]))
      (axis_pos Y) = Ok (VInt i) /\
    take_column (sample_points 2) (VInt i) = Ok data /\
    ax_limits a Y = Some (autoscale sample_plt Y data (fresh_limits sample_plt Y)) /\
    Axes.get_bound Y a =
      Ok (Axes.ordered (autoscale sample_plt Y data (fresh_limits sample_plt Y))).
Proof.
  apply (unset_bound_kept (sample_points 2) sample_plt default_s default_c
           {["xbound" := VTuple [0; 3]]} loaded Y);
    [vm_compute; reflexivity | discriminate | reflexivity
    | intros data _; vm_compute; reflexivity].
Defined.

(** ** Camera and title *)

(** C7: in the 3-D branch the camera of the returned axes is set from
    [euler] read as (azimuth, elevation): the elevation is [euler[1]] and the
    azimuth is [euler[0]]; when [euler] is not given, the view is elevation
    30, azimuth -60. *)
Theorem camera_from_euler (A : ndarray) (plt : pyplot) (s : marker_size)
    (c : color) (kwargs : gmap string pyval) (w : world) :
  (3 <= ncols A)%nat ->
  well_formed A plt s c kwargs = true ->
  exists fig ax w' a azim elev,
    plot A (Some plt) s c kwargs w = (Ok (fig, ax), w') /\
    axes_objs w' !! ax = Some a /\
    subscript (kwarg kwargs "euler" (VTuple [-60; 30])) 0 = Ok (VInt azim) /\
    subscript (kwarg kwargs "euler" (VTuple [-60; 30])) 1 = Ok (VInt elev) /\
    ax_view a = Some (elev, azim) /\
    (kwargs !! "euler" = None -> ax_view a = Some (30, -60)).
Proof.
  intros Hc Hwf.
  destruct (plot_spatial A plt s c kwargs w Hwf Hc)
    as (i0 & i1 & i2 & x & y & z & bx & by_ & bz & lx & ly & lz & fs &
        az & el & H).
  do 13 (destruct H as [_ H]). destruct H as (He0 & He1 & Hrun).
  eexists _, _, _, _, az, el.
  split; [exact Hrun|]. split; [apply lookup_last|].
  repeat (split; [assumption|]). split; [apply spatial_view|].
  intros Hnone. rewrite spatial_view.
  unfold kwarg in He0, He1. rewrite Hnone in He0, He1. simpl in He0, He1.
  congruence.
Qed.

Lemma camera_from_euler_witness :
  (3 <= ncols (sample_points 3))%nat /\
  well_formed (sample_points 3) sample_plt default_s default_c
    {["euler" := VTuple [22; 21]]} = true /\
  exists fig ax w' a,
    plot (sample_points 3) (Some sample_plt) default_s default_c
      {["euler" := VTuple [22; 21]]} loaded = (Ok (fig, ax), w') /\
    axes_objs w' !! ax = Some a /\
    ax_view a = Some (21, 22).
Proof.
  assert (Hc : (3 <= ncols (sample_points 3))%nat) by (simpl; lia).
  assert (Hwf : well_formed (sample_points 3) sample_plt default_s default_c
                  {["euler" := VTuple [22; 21]]} = true)
    by (vm_compute; reflexivity).
  split; [exact Hc|]. split; [exact Hwf|].
  destruct (camera_from_euler (sample_points 3) sample_plt default_s
              default_c {["euler" := VTuple [22; 21]]} loaded Hc Hwf)
    as (fig & ax & w' & a & azim & elev & Hrun & Hax & He0 & He1 & Hv & _).
  vm_compute in He0, He1. injection He0 as <-. injection He1 as <-.
  exists fig, ax, w', a. repeat (split; [assumption|]). exact Hv.
Defined.

(** C8: when the [title] option is set, the figure [plot] created carries
    exactly that string as its title; when it is unset, the figure has no
    title. *)
Theorem title_attached (A : ndarray) (plt : pyplot) (s : marker_size)
    (c : color) (kwargs : gmap string pyval) (w : world) :
  well_formed A plt s c kwargs = true ->
  exists fig ax w' f,
    plot A (Some plt) s c kwargs w = (Ok (fig, ax), w') /\
    figures w' !! fig = Some f /\
    (forall t, kwarg kwargs "title" VNone = VStr t ->
               fig_suptitle f = Some t) /\
    (kwarg kwargs "title" VNone = VNone -> fig_suptitle f = None).
Proof.
  intros Hwf. destruct (Nat.lt_ge_cases (ncols A) 3) as [Hc|Hc].
  - destruct (plot_flat A plt s c kwargs w Hwf Hc)
      as (i0 & i1 & x & y & bx & by_ & lx & ly & fs & H).
    do 9 (destruct H as [_ H]).
    eexists _, _, _, _. split; [exact H|]. split; [apply lookup_last|].
    simpl. split; [intros t ->|intros ->]; reflexivity.
  - destruct (plot_spatial A plt s c kwargs w Hwf Hc)
      as (i0 & i1 & i2 & x & y & z & bx & by_ & bz & lx & ly & lz & fs &
          az & el & H).
    do 15 (destruct H as [_ H]).
    eexists _, _, _, _. split; [exact H|]. split; [apply lookup_last|].
    simpl. split; [intros t ->|intros ->]; reflexivity.
Qed.

Lemma title_attached_witness :
  well_formed (sample_points 2) sample_plt default_s default_c
    {["title" := VStr "Front"]} = true /\
  exists fig ax w' f,
    plot (sample_points 2) (Some sample_plt) default_s default_c
      {["title" := VStr "Front"]} loaded = (Ok (fig, ax), w') /\
    figures w' !! fig = Some f /\
    fig_suptitle f = Some "Front".
Proof.
  assert (Hwf : well_formed (sample_points 2) sample_plt default_s default_c
                  {["title" := VStr "Front"]} = true)
    by (vm_compute; reflexivity).
  split; [exact Hwf|].
  destruct (title_attached (sample_points 2) sample_plt default_s default_c
              {["title" := VStr "Front"]} loaded Hwf)
    as (fig & ax & w' & f & Hrun & Hf & Hset & _).
  exists fig, ax, w', f. repeat (split; [assumption|]).
  apply Hset. reflexivity.
Defined.

(** ** The camera-angle table is not consulted *)

Lemma blind_ret {T} (v : T) : blind (ret v).
Proof. intros t w. reflexivity. Qed.

Lemma blind_raise {T} e : blind (@raise T e).
Proof. intros t w. reflexivity. Qed.

Lemma blind_lift {T} (r : result T) : blind (lift r).
Proof. intros t w. reflexivity. Qed.

Lemma blind_bind {T U} (m : M T) (k : T -> M U) :
  blind m -> (forall v, blind (k v)) -> blind (bind m k).
Proof.
  intros Hm Hk t w. unfold bind. rewrite Hm.
  destruct (m w) as [[v|e|] w']; simpl; try reflexivity. apply Hk.
Qed.

Lemma blind_read_figure fig : blind (read_figure fig).
Proof. intros t w. unfold read_figure; simpl. now destruct (figures w !! fig). Qed.

Lemma blind_write_figure fig f : blind (write_figure fig f).
Proof. intros t w. reflexivity. Qed.

Lemma blind_new_figure f : blind (new_figure f).
Proof. intros t w. reflexivity. Qed.

Lemma blind_new_axes a : blind (new_axes a).
Proof. intros t w. reflexivity. Qed.

Lemma blind_ask {T} ax (method : axes_obj -> result T) : blind (ask ax method).
Proof. intros t w. unfold ask; simpl. now destruct (axes_objs w !! ax). Qed.

Lemma blind_call ax method : blind (call ax method).
Proof.
  intros t w. unfold call; simpl.
  destruct (axes_objs w !! ax) as [a|]; [|reflexivity].
  now destruct (method a).
Qed.

Lemma blind_if {T} (b : bool) (m1 m2 : M T) :
  blind m1 -> blind m2 -> blind (if b then m1 else m2).
Proof. now destruct b. Qed.

Create HintDb blind.
#[local] Hint Resolve blind_ret blind_raise blind_lift blind_read_figure
  blind_write_figure blind_new_figure blind_new_axes blind_ask blind_call
  : blind.

Ltac blind_steps :=
  repeat first
    [ solve [auto with blind]
    | apply blind_if
    | apply blind_bind; [|intros ?] ].

Lemma blind_figure plt : blind (figure plt).
Proof. unfold figure. blind_steps. Qed.

Lemma blind_suptitle fig t : blind (suptitle fig t).
Proof. unfold suptitle. blind_steps. Qed.

Lemma blind_add_axes fig k register : blind (add_axes fig k register).
Proof. unfold add_axes. blind_steps. Qed.

Lemma blind_gca fig : blind (gca fig).
Proof.
  unfold gca. apply blind_bind; [auto with blind|]. intros f.
  destruct (last (fig_axes f)); [apply blind_ret|apply blind_add_axes].
Qed.

Lemma blind_Axes3D fig : blind (Axes3D fig).
Proof. apply blind_add_axes. Qed.

Lemma blind_axis_label p axes i : blind (axis_label p axes i).
Proof. unfold axis_label. blind_steps. Qed.

Lemma blind_bound_or get b : blind get -> blind (bound_or get b).
Proof. intros Hg. unfold bound_or. blind_steps. Qed.

#[local] Hint Resolve blind_figure blind_suptitle blind_gca blind_Axes3D
  blind_axis_label blind_bound_or : blind.

Lemma blind_plot A plt s c kwargs : blind (plot A plt s c kwargs).
Proof. unfold plot. destruct plt; blind_steps. Qed.

(** C9: the result of [plot] does not depend on the contents of the
    [camera_angles] table.  Run with the same arguments and the same engine
    objects under two tables, [plot] gives the same outcome and the same
    figures and axes, and leaves each table as it found it: it never reads
    nor writes the table. *)
Theorem plot_ignores_camera_angles (A : ndarray) (plt : option pyplot)
    (s : marker_size) (c : color) (kwargs : gmap string pyval)
    (t1 t2 : angle_table) (figs : list figure_obj) (axs : list axes_obj) :
  let w1 := {| module_camera_angles := t1; figures := figs;
               axes_objs := axs |} in
  let w2 := {| module_camera_angles := t2; figures := figs;
               axes_objs := axs |} in
  (plot A plt s c kwargs w1).1 = (plot A plt s c kwargs w2).1 /\
  figures (plot A plt s c kwargs w1).2 = figures (plot A plt s c kwargs w2).2 /\
  axes_objs (plot A plt s c kwargs w1).2 =
    axes_objs (plot A plt s c kwargs w2).2 /\
  module_camera_angles (plot A plt s c kwargs w1).2 = t1 /\
  module_camera_angles (plot A plt s c kwargs w2).2 = t2.
Proof.
  intros w1 w2.
  pose proof (blind_plot A plt s c kwargs t1 w2) as H1.
  pose proof (blind_plot A plt s c kwargs t2 w2) as H2.
  change (set_camera_angles t1 w2) with w1 in H1.
  change (set_camera_angles t2 w2) with w2 in H2.
  rewrite H1. simpl. repeat split. rewrite H2. reflexivity.
Qed.

(** ** Keyword options [plot] does not know *)

Lemma lookup_without (kwargs : gmap string pyval) (extra : list string) key :
  key ∉ extra -> foldr delete kwargs extra !! key = kwargs !! key.
Proof.
  induction extra as [|k extra IH]; intros Hk; simpl; [reflexivity|].
  apply not_elem_of_cons in Hk as [Hne Hk].
  rewrite lookup_delete_ne by congruence. now apply IH.
Qed.

Lemma kwarg_without (kwargs : gmap string pyval) extra key default :
  key ∉ extra ->
  kwarg (foldr delete kwargs extra) key default = kwarg kwargs key default.
Proof. intros Hk. unfold kwarg. now rewrite lookup_without. Qed.

(** C10: keyword options other than [label_prefix], [label_fontsize],
    [axes], [euler], [xbound], [ybound], [zbound] and [title] are ignored:
    whatever extra keys the dictionary holds, [plot] raises no error for them
    and does exactly what it does on the dictionary without those keys. *)
Theorem extra_options_ignored (A : ndarray) (plt : option pyplot)
    (s : marker_size) (c : color) (kwargs : gmap string pyval)
    (extra : list string) (w : world) :
  (forall key, key ∈ extra -> key ∉ option_names) ->
  plot A plt s c kwargs w = plot A plt s c (foldr delete kwargs extra) w.
Proof.
  intros Hextra.
  assert (Hin : forall key, key ∈ option_names -> key ∉ extra)
    by (intros key Hk He; exact (Hextra key He Hk)).
  unfold plot.
  rewrite !kwarg_without by (apply Hin; unfold option_names; set_solver).
  reflexivity.
Qed.

Lemma extra_options_ignored_witness :
  plot (sample_points 3) (Some sample_plt) default_s default_c
    {["title" := VStr "Front"; "marker" := VStr "o"; "alpha" := VInt 1]}
    loaded =
  plot (sample_points 3) (Some sample_plt) default_s default_c
    (foldr delete
       {["title" := VStr "Front"; "marker" := VStr "o"; "alpha" := VInt 1]}
       ["marker"; "alpha"])
    loaded.
Proof.
  apply (extra_options_ignored (sample_points 3) (Some sample_plt)).
  intros key Hk. unfold option_names.
  apply elem_of_cons in Hk as [->|Hk];
    [|apply elem_of_cons in Hk as [->|Hk]; [|inversion Hk]];
    intros Hin; repeat (apply elem_of_cons in Hin as [Hin|Hin];
                        [discriminate|]); inversion Hin.
Defined.

(** * Further properties *)

(** ** The objects a call creates *)

(** A well-formed call ends in the world it started from, extended with one
    figure and one axes; the references it returns are theirs. *)
Lemma plot_stage A plt s c kwargs w :
  well_formed A plt s c kwargs = true ->
  exists f a,
    plot A (Some plt) s c kwargs w =
      (Ok (length (figures w), length (axes_objs w)), stage w f a) /\
    fig_engine f = plt /\
    fig_axes f = registered plt (kind_for A) (length (axes_objs w)) /\
    ax_engine a = plt /\ ax_figure a = length (figures w) /\
    ax_kind a = kind_for A.
Proof.
  intros Hwf. unfold kind_for.
  destruct (Nat.lt_ge_cases (ncols A) 3) as [Hc|Hc].
  - destruct (plot_flat A plt s c kwargs w Hwf Hc)
      as (i0 & i1 & x & y & bx & by_ & lx & ly & fs & H).
    do 9 (destruct H as [_ H]).
    apply Nat.ltb_lt in Hc. rewrite Hc.
    eexists _, _. split; [exact H|]. repeat split.
  - destruct (plot_spatial A plt s c kwargs w Hwf Hc)
      as (i0 & i1 & i2 & x & y & z & bx & by_ & bz & lx & ly & lz & fs &
          az & el & H).
    do 15 (destruct H as [_ H]).
    apply Nat.ltb_ge in Hc. rewrite Hc.
    eexists _, _. split; [exact H|]. repeat split.
Qed.

(** X1: a well-formed call with an engine adds exactly one figure and one
    axes to the engine's objects and returns the references of these two:
    every figure and axes that existed before is still there, unchanged,
    the axes was made for the returned figure, and both are objects of the
    handle that was passed.  The figure lists no other axes: it lists the
    returned one when that is a 2-D axes, and a 3-D axes when the engine
    adds it to the figure it is made for. *)
Theorem plot_creates_one_figure_one_axes (A : ndarray) (plt : pyplot)
    (s : marker_size) (c : color) (kwargs : gmap string pyval) (w : world) :
  well_formed A plt s c kwargs = true ->
  exists fig ax w' f a,
    plot A (Some plt) s c kwargs w = (Ok (fig, ax), w') /\
    fig = length (figures w) /\ ax = length (axes_objs w) /\
    module_camera_angles w' = module_camera_angles w /\
    figures w' = figures w ++ [f] /\
    axes_objs w' = axes_objs w ++ [a] /\
    fig_axes f = registered plt (kind_for A) ax /\ ax_figure a = fig /\
    fig_engine f = plt /\ ax_engine a = plt.
Proof.
  intros Hwf.
  destruct (plot_stage A plt s c kwargs w Hwf)
    as (f & a & Hrun & Hfe & Hfa & Hae & Haf & _).
  exists (length (figures w)), (length (axes_objs w)), (stage w f a), f, a.
  split; [exact Hrun|]. repeat (split; [reflexivity|]).
  repeat (split; [assumption|]). assumption.
Qed.

Lemma plot_creates_one_figure_one_axes_witness :
  exists fig ax w' f a,
    plot (sample_points 3) (Some sample_plt) default_s default_c ∅ loaded =
      (Ok (fig, ax), w') /\
    fig = length (figures loaded) /\ ax = length (axes_objs loaded) /\
    module_camera_angles w' = module_camera_angles loaded /\
    figures w' = figures loaded ++ [f] /\
    axes_objs w' = axes_objs loaded ++ [a] /\
    fig_axes f = registered sample_plt (kind_for (sample_points 3)) ax /\
    ax_figure a = fig /\
    fig_engine f = sample_plt /\ ax_engine a = sample_plt.
Proof.
  apply (plot_creates_one_figure_one_axes (sample_points 3) sample_plt).
  vm_compute; reflexivity.
Defined.

Lemma lookup_before_last {T} (l : list T) (x : T) i :
  (i < length l)%nat -> (l ++ [x]) !! i = l !! i.
Proof. intros Hi. now apply lookup_app_l. Qed.

(** X2: two well-formed calls in a row never share objects: the second
    call returns a figure and an axes different from those of the first,
    and leaves the figure and the axes of the first call as they were. *)
Theorem successive_plots_are_separate (A1 A2 : ndarray) (plt1 plt2 : pyplot)
    (s1 s2 : marker_size) (c1 c2 : color) (kwargs1 kwargs2 : gmap string pyval)
    (w : world) :
  well_formed A1 plt1 s1 c1 kwargs1 = true ->
  well_formed A2 plt2 s2 c2 kwargs2 = true ->
  exists fig1 ax1 w1 fig2 ax2 w2,
    plot A1 (Some plt1) s1 c1 kwargs1 w = (Ok (fig1, ax1), w1) /\
    plot A2 (Some plt2) s2 c2 kwargs2 w1 = (Ok (fig2, ax2), w2) /\
    fig1 <> fig2 /\ ax1 <> ax2 /\
    figures w2 !! fig1 = figures w1 !! fig1 /\
    axes_objs w2 !! ax1 = axes_objs w1 !! ax1.
Proof.
  intros Hwf1 Hwf2.
  destruct (plot_stage A1 plt1 s1 c1 kwargs1 w Hwf1) as (f1 & a1 & Hrun1 & _).
  destruct (plot_stage A2 plt2 s2 c2 kwargs2 (stage w f1 a1) Hwf2)
    as (f2 & a2 & Hrun2 & _).
  eexists _, _, _, _, _, _. split; [exact Hrun1|]. split; [exact Hrun2|].
  simpl. rewrite !length_app. simpl.
  split; [lia|]. split; [lia|].
  split; apply lookup_before_last; rewrite length_app; simpl; lia.
Qed.

Lemma successive_plots_are_separate_witness :
  exists fig1 ax1 w1 fig2 ax2 w2,
    plot (sample_points 2) (Some sample_plt) default_s default_c ∅ loaded =
      (Ok (fig1, ax1), w1) /\
    plot (sample_points 3) (Some sample_plt) default_s default_c ∅ w1 =
      (Ok (fig2, ax2), w2) /\
    fig1 <> fig2 /\ ax1 <> ax2 /\
    figures w2 !! fig1 = figures w1 !! fig1 /\
    axes_objs w2 !! ax1 = axes_objs w1 !! ax1.
Proof.
  apply (successive_plots_are_separate (sample_points 2) (sample_points 3)
           sample_plt sample_plt);
    vm_compute; reflexivity.
Defined.
(** ** What a call leaves alone, whatever its outcome *)

Lemma local_ret {T} w (v : T) : local_at w (ret v).
Proof. intros f a. now exists a. Qed.

Lemma local_lift {T} w (r : result T) : local_at w (lift r).
Proof. intros f a. now exists a. Qed.

Lemma local_bind {T U} w (m : M T) (k : T -> M U) :
  local_at w m -> (forall v, local_at w (k v)) -> local_at w (bind m k).
Proof.
  intros Hm Hk f a. destruct (Hm f a) as [a1 H1]. unfold bind.
  destruct (m (stage w f a)) as [[v|e|] w1]; simpl in H1; subst w1.
  - apply Hk.
  - now exists a1.
  - now exists a1.
Qed.

Lemma local_call w method : local_at w (call (length (axes_objs w)) method).
Proof.
  intros f a. rewrite call_stage.
  destruct (method a) as [a'| |]; simpl; eauto.
Qed.

Lemma local_ask {T} w (method : axes_obj -> result T) :
  local_at w (ask (length (axes_objs w)) method).
Proof. intros f a. rewrite ask_stage. now exists a. Qed.

Lemma local_if {T} w (b : bool) (m1 m2 : M T) :
  local_at w m1 -> local_at w m2 -> local_at w (if b then m1 else m2).
Proof. now destruct b. Qed.

Create HintDb local.
#[local] Hint Resolve local_ret local_lift local_call local_ask : local.

Ltac local_steps :=
  repeat first
    [ solve [auto with local]
    | apply local_if
    | apply local_bind; [|intros ?] ].

Lemma local_axis_label w p axes i : local_at w (axis_label p axes i).
Proof. unfold axis_label. local_steps. Qed.

Lemma local_bound_or w get b : local_at w get -> local_at w (bound_or get b).
Proof. intros Hg. unfold bound_or. local_steps. Qed.

#[local] Hint Resolve local_axis_label local_bound_or : local.

(** Creating the figure and titling it, whatever the title option holds:
    either the axes is created and the rest runs, or the call stops with
    the figure alone. *)
Lemma open_any {B} plt title k (mk : nat -> M nat)
    (rest : nat -> nat -> M B) w :
  (forall t fs xs o,
     mk (length fs)
       {| module_camera_angles := t; figures := fs ++ [new_fig plt o []];
          axes_objs := xs |} =
     (Ok (length xs),
      {| module_camera_angles := t;
         figures := fs ++ [new_fig plt o (registered plt k (length xs))];
         axes_objs := xs ++ [Axes.fresh plt (length fs) k] |})) ->
  (fig <- figure plt ;;
   (if is_None title then ret tt
    else t <- lift (as_text title) ;; suptitle fig t) ;;
   ax <- mk fig ;;
   rest fig ax) w =
  if title_ok title then
    rest (length (figures w)) (length (axes_objs w))
      (stage w
         (new_fig plt (title_text title)
            (registered plt k (length (axes_objs w))))
         (Axes.fresh plt (length (figures w)) k))
  else (Beyond, set_figures (figures w ++ [new_fig plt None []]) w).
Proof.
  intros Hmk. destruct (title_ok title) eqn:Ht.
  - now apply open_figure.
  - destruct title; try discriminate; reflexivity.
Qed.

Ltac newest_only w :=
  match goal with
  | |- context [snd (?m (stage w ?f ?a))] =>
      let Hl := fresh "Hl" in
      let a' := fresh "a'" in
      let Ha' := fresh "Ha'" in
      assert (Hl : local_at w m) by local_steps;
      destruct (Hl f a) as [a' Ha']; rewrite Ha'
  end.

Lemma plot_grows A plt s c kwargs w :
  exists fs xs,
    (plot A (Some plt) s c kwargs w).2 =
      {| module_camera_angles := module_camera_angles w;
         figures := figures w ++ fs; axes_objs := axes_objs w ++ xs |} /\
    length fs = 1%nat /\ (length xs <= 1)%nat.
Proof.
  unfold plot. destruct (ncols A <? 3)%nat.
  - rewrite (open_any plt _ Axes2D gca) by (intros; apply gca_last).
    destruct (title_ok _).
    + newest_only w. eexists [_], [_]. split; [reflexivity|]. simpl. lia.
    + eexists [_], []. simpl. rewrite app_nil_r. split; [reflexivity|]. lia.
  - rewrite (open_any plt _ Axes3D_ Axes3D) by (intros; apply Axes3D_last).
    destruct (title_ok _).
    + newest_only w. eexists [_], [_]. split; [reflexivity|]. simpl. lia.
    + eexists [_], []. simpl. rewrite app_nil_r. split; [reflexivity|]. lia.
Qed.

(** X3: on every input and whatever the outcome (a return, an exception,
    or an input outside the model), [plot] leaves the [camera_angles] table
    and all existing figures and axes as they are.  It adds at most one
    figure and at most one axes, never an axes without a figure, and it adds
    no figure exactly when the engine handle is [None]. *)
Theorem plot_keeps_existing_objects (A : ndarray) (plt : option pyplot)
    (s : marker_size) (c : color) (kwargs : gmap string pyval) (w : world) :
  exists fs xs,
    module_camera_angles (plot A plt s c kwargs w).2 = module_camera_angles w /\
    figures (plot A plt s c kwargs w).2 = figures w ++ fs /\
    axes_objs (plot A plt s c kwargs w).2 = axes_objs w ++ xs /\
    (length xs <= length fs <= 1)%nat /\
    (length fs = 0%nat <-> plt = None).
Proof.
  destruct plt as [plt|].
  - destruct (plot_grows A plt s c kwargs w) as (fs & xs & -> & Hf & Hx).
    exists fs, xs. simpl. repeat (split; [reflexivity|]).
    split; [lia|]. split; [lia|discriminate].
  - exists [], []. simpl. rewrite !app_nil_r. repeat (split; [reflexivity|]).
    split; [lia|]. split; reflexivity.
Qed.
(** ** Failing column selections *)

(** Selecting a column: [axes[i]] is evaluated, then [A[:, axes[i]]]. *)
Lemma bind_selected {B} A axes i (k : list num -> M B) w :
  (a <- lift (subscript axes i) ;; x <- lift (take_column A a) ;; k x) w =
  match selected A axes i with
  | Ok x => k x w
  | Raise e => (Raise e, w)
  | Beyond => (Beyond, w)
  end.
Proof.
  unfold selected, bind, lift.
  destruct (subscript axes i) as [a| |]; simpl; try reflexivity.
Qed.

Lemma plot_selects A plt s c kwargs w :
  title_ok (kwarg kwargs "title" VNone) = true ->
  forall i e,
    (i < shown A)%nat ->
    (forall k, (k < i)%nat ->
       exists x, selected A (kwarg kwargs "axes" (VTuple [0; 1; 2])) k = Ok x) ->
    selected A (kwarg kwargs "axes" (VTuple [0; 1; 2])) i = Raise e ->
    plot A (Some plt) s c kwargs w =
      (Raise e, opened A plt (kwarg kwargs "title" VNone) w).
Proof.
  intros Ht i e Hi Hbefore Hfail.
  unfold plot, opened, kind_for. unfold shown in Hi.
  destruct (ncols A <? 3)%nat.
  - rewrite (open_figure plt _ Axes2D gca); [|intros; apply gca_last|assumption].
    rewrite bind_selected.
    destruct i as [|i]; [now rewrite Hfail|].
    destruct (Hbefore 0%nat ltac:(lia)) as [x ->].
    rewrite bind_selected.
    destruct i as [|i]; [now rewrite Hfail|lia].
  - rewrite (open_figure plt _ Axes3D_ Axes3D);
      [|intros; apply Axes3D_last|assumption].
    rewrite bind_selected.
    destruct i as [|i]; [now rewrite Hfail|].
    destruct (Hbefore 0%nat ltac:(lia)) as [x ->].
    rewrite bind_selected.
    destruct i as [|i]; [now rewrite Hfail|].
    destruct (Hbefore 1%nat ltac:(lia)) as [y ->].
    rewrite bind_selected.
    destruct i as [|i]; [now rewrite Hfail|lia].
Qed.

(** X4: the columns are selected only after the figure and its axes have
    been created.  When the selection [A[:, axes[i]]] of a displayed position
    [i] raises (an index out of range, an [axes] tuple that is too short, an
    [axes] value that cannot be subscripted) and the positions before it
    select fine, [plot] raises that same exception and leaves behind the new
    figure, titled if a title was given, and the fresh axes made for it, on
    which nothing has been drawn; the figure lists that axes when it is a
    2-D axes, and a 3-D axes when the engine adds it.  The sizes, the
    colours and the bound, label and camera options are not looked at before
    that. *)
Theorem column_error_leaves_figure (A : ndarray) (plt : pyplot)
    (s : marker_size) (c : color) (kwargs : gmap string pyval) (w : world)
    (i : nat) (e : exn) :
  title_ok (kwarg kwargs "title" VNone) = true ->
  (i < shown A)%nat ->
  (forall k, (k < i)%nat ->
     exists x, selected A (kwarg kwargs "axes" (VTuple [0; 1; 2])) k = Ok x) ->
  selected A (kwarg kwargs "axes" (VTuple [0; 1; 2])) i = Raise e ->
  exists f a,
    plot A (Some plt) s c kwargs w = (Raise e, stage w f a) /\
    fig_suptitle f = title_text (kwarg kwargs "title" VNone) /\
    fig_axes f = registered plt (kind_for A) (length (axes_objs w)) /\
    a = Axes.fresh plt (length (figures w)) (kind_for A).
Proof.
  intros Ht Hi Hbefore Hfail.
  eexists _, _.
  split; [exact (plot_selects A plt s c kwargs w Ht i e Hi Hbefore Hfail)|].
  repeat split.
Qed.

Lemma column_error_leaves_figure_witness :
  exists f a,
    plot (sample_points 3) (Some sample_plt) default_s default_c
      {["axes" := VTuple [0; 3; 1]]} loaded = (Raise IndexError, stage loaded f a) /\
    fig_suptitle f =
      title_text (kwarg {["axes" := VTuple [0; 3; 1]]} "title" VNone) /\
    fig_axes f =
      registered sample_plt (kind_for (sample_points 3))
        (length (axes_objs loaded)) /\
    a = Axes.fresh sample_plt (length (figures loaded))
          (kind_for (sample_points 3)).
Proof.
  apply (column_error_leaves_figure (sample_points 3) sample_plt default_s
           default_c {["axes" := VTuple [0; 3; 1]]} loaded 1 IndexError).
  - reflexivity.
  - vm_compute; lia.
  - intros k Hk. assert (k = 0%nat) as -> by lia. eexists. reflexivity.
  - reflexivity.
Defined.

Lemma take_column_outside A j :
  ~ (- Z.of_nat (ncols A) <= j < Z.of_nat (ncols A)) ->
  take_column A (VInt j) = Raise IndexError.
Proof.
  intros Hj. unfold take_column.
  destruct ((0 <=? j) && (j <? Z.of_nat (ncols A))) eqn:E1.
  { apply andb_prop in E1 as [H1 H2].
    apply Z.leb_le in H1. apply Z.ltb_lt in H2. lia. }
  destruct ((- Z.of_nat (ncols A) <=? j) && (j <? 0)) eqn:E2; [|reflexivity].
  apply andb_prop in E2 as [H1 H2].
  apply Z.leb_le in H1. apply Z.ltb_lt in H2. lia.
Qed.

Lemma take_column_inside A j :
  - Z.of_nat (ncols A) <= j < Z.of_nat (ncols A) ->
  take_column A (VInt j) =
    Ok (column_at A (Z.to_nat (if 0 <=? j then j else Z.of_nat (ncols A) + j))).
Proof.
  intros Hj. unfold take_column.
  destruct (0 <=? j) eqn:E0; simpl.
  - assert ((j <? Z.of_nat (ncols A)) = true) as -> by (apply Z.ltb_lt; lia).
    reflexivity.
  - apply Z.leb_gt in E0.
    assert ((- Z.of_nat (ncols A) <=? j) = true) as -> by (apply Z.leb_le; lia).
    assert ((j <? 0) = true) as -> by (apply Z.ltb_lt; lia).
    reflexivity.
Qed.

(** X5: a point matrix with fewer than two columns cannot be drawn with the
    default [axes]: the 2-D branch asks for columns 0 and 1, and [plot]
    raises [IndexError], leaving the new figure with an empty 2-D axes. *)
Theorem too_few_columns_for_default_axes (A : ndarray) (plt : pyplot)
    (s : marker_size) (c : color) (kwargs : gmap string pyval) (w : world) :
  (ncols A < 2)%nat ->
  kwargs !! "axes" = None ->
  title_ok (kwarg kwargs "title" VNone) = true ->
  plot A (Some plt) s c kwargs w =
    (Raise IndexError, opened A plt (kwarg kwargs "title" VNone) w).
Proof.
  intros Hc Hax Ht.
  assert (Hsh : shown A = 2%nat).
  { unfold shown. destruct (ncols A <? 3)%nat eqn:E; [reflexivity|].
    apply Nat.ltb_ge in E. lia. }
  assert (Haxes : kwarg kwargs "axes" (VTuple [0; 1; 2]) = VTuple [0; 1; 2])
    by (unfold kwarg; now rewrite Hax).
  destruct (ncols A) as [|[|m]] eqn:Em; [| |lia].
  - apply (plot_selects A plt s c kwargs w Ht 0%nat); [lia| |].
    + intros k Hk. lia.
    + rewrite Haxes.
      change (selected A (VTuple [0; 1; 2]) 0) with (take_column A (VInt 0)).
      apply take_column_outside. rewrite Em. simpl. lia.
  - apply (plot_selects A plt s c kwargs w Ht 1%nat); [lia| |].
    + intros k Hk. assert (k = 0%nat) as -> by lia.
      rewrite Haxes.
      change (selected A (VTuple [0; 1; 2]) 0) with (take_column A (VInt 0)).
      rewrite take_column_inside by (rewrite Em; simpl; lia). eauto.
    + rewrite Haxes.
      change (selected A (VTuple [0; 1; 2]) 1) with (take_column A (VInt 1)).
      apply take_column_outside. rewrite Em. simpl. lia.
Qed.

Lemma too_few_columns_for_default_axes_witness :
  plot (sample_points 1) (Some sample_plt) default_s default_c ∅ loaded =
    (Raise IndexError, opened (sample_points 1) sample_plt (kwarg ∅ "title" VNone) loaded).
Proof.
  apply (too_few_columns_for_default_axes (sample_points 1) sample_plt);
    [simpl; lia | reflexivity | reflexivity].
Defined.

(** X6: the branch is chosen by the number of columns of the matrix, not
    by the length of [axes].  For a matrix with three or more columns, an
    [axes] tuple of two valid indices does not give a 2-D plot: the 3-D
    branch reads [axes[2]] and [plot] raises [IndexError], leaving the new
    figure and an empty 3-D axes made for it (listed in the figure when the
    engine adds it). *)
Theorem two_axes_on_wide_matrix (A : ndarray) (plt : pyplot)
    (s : marker_size) (c : color) (kwargs : gmap string pyval) (w : world)
    (i0 i1 : Z) :
  (3 <= ncols A)%nat ->
  kwargs !! "axes" = Some (VTuple [i0; i1]) ->
  - Z.of_nat (ncols A) <= i0 < Z.of_nat (ncols A) ->
  - Z.of_nat (ncols A) <= i1 < Z.of_nat (ncols A) ->
  title_ok (kwarg kwargs "title" VNone) = true ->
  plot A (Some plt) s c kwargs w =
    (Raise IndexError, opened A plt (kwarg kwargs "title" VNone) w).
Proof.
  intros Hc Hax H0 H1 Ht.
  assert (Hsh : shown A = 3%nat).
  { unfold shown. destruct (ncols A <? 3)%nat eqn:E; [|reflexivity].
    apply Nat.ltb_lt in E. lia. }
  assert (Haxes : kwarg kwargs "axes" (VTuple [0; 1; 2]) = VTuple [i0; i1])
    by (unfold kwarg; now rewrite Hax).
  apply (plot_selects A plt s c kwargs w Ht 2%nat); [lia| |].
  - intros k Hk. rewrite Haxes. unfold selected.
    destruct k as [|[|k]]; [| |lia].
    + change (rbind (subscript (VTuple [i0; i1]) 0) (take_column A))
        with (take_column A (VInt i0)).
      rewrite take_column_inside by assumption. eauto.
    + change (rbind (subscript (VTuple [i0; i1]) 1) (take_column A))
        with (take_column A (VInt i1)).
      rewrite take_column_inside by assumption. eauto.
  - rewrite Haxes. reflexivity.
Qed.

Lemma two_axes_on_wide_matrix_witness :
  plot (sample_points 5) (Some sample_plt) default_s default_c
    {["axes" := VTuple [3; 4]]} loaded =
  (Raise IndexError,
   opened (sample_points 5) sample_plt
     (kwarg {["axes" := VTuple [3; 4]]} "title" VNone) loaded).
Proof.
  apply (two_axes_on_wide_matrix (sample_points 5) sample_plt default_s
           default_c {["axes" := VTuple [3; 4]]} loaded 3 4);
    [simpl; lia | reflexivity | simpl; lia | simpl; lia | reflexivity].
Defined.
(** ** What the options do not influence *)

Lemma kwarg_insert (kwargs : gmap string pyval) key v default :
  kwarg (<[key := v]> kwargs) key default = v.
Proof. unfold kwarg. now rewrite lookup_insert_eq. Qed.

Lemma kwarg_insert_ne (kwargs : gmap string pyval) key key' v default :
  key <> key' ->
  kwarg (<[key := v]> kwargs) key' default = kwarg kwargs key' default.
Proof. intros Hne. unfold kwarg. now rewrite lookup_insert_ne. Qed.

Lemma kwarg_delete (kwargs : gmap string pyval) key default :
  kwarg (delete key kwargs) key default = default.
Proof. unfold kwarg. now rewrite lookup_delete_eq. Qed.

Lemma kwarg_delete_ne (kwargs : gmap string pyval) key key' default :
  key <> key' ->
  kwarg (delete key kwargs) key' default = kwarg kwargs key' default.
Proof. intros Hne. unfold kwarg. now rewrite lookup_delete_ne. Qed.

(** X7: in the 2-D branch (fewer than three columns) the [euler] and
    [zbound] options are never read: whatever values they hold, of the
    documented type or not, [plot] does exactly what it does without them. *)
Theorem flat_plot_ignores_euler_and_zbound (A : ndarray) (plt : option pyplot)
    (s : marker_size) (c : color) (kwargs : gmap string pyval)
    (euler zbound : pyval) (w : world) :
  (ncols A < 3)%nat ->
  plot A plt s c (<["euler" := euler]> (<["zbound" := zbound]> kwargs)) w =
  plot A plt s c kwargs w.
Proof.
  intros Hc. apply Nat.ltb_lt in Hc. unfold plot.
  rewrite !(kwarg_insert_ne _ "euler") by discriminate.
  rewrite !(kwarg_insert_ne _ "zbound") by discriminate.
  rewrite Hc. reflexivity.
Qed.

Lemma flat_plot_ignores_euler_and_zbound_witness :
  plot (sample_points 2) (Some sample_plt) default_s default_c
    (<["euler" := VStr "top"]> (<["zbound" := VInt 3]> ∅)) loaded =
  plot (sample_points 2) (Some sample_plt) default_s default_c ∅ loaded.
Proof.
  apply (flat_plot_ignores_euler_and_zbound (sample_points 2)).
  simpl; lia.
Defined.

Lemma subscript_take l1 l2 n i :
  take n l1 = take n l2 -> (i < n)%nat ->
  subscript (VTuple l1) i = subscript (VTuple l2) i.
Proof.
  intros Ht Hi. unfold subscript.
  rewrite <- (lookup_take_lt l1 n i Hi), <- (lookup_take_lt l2 n i Hi).
  now rewrite Ht.
Qed.

(** X8: only the leading entries of [axes] count, two in the 2-D branch
    and three in the 3-D branch: two tuples that agree on these entries give
    the same outcome and the same objects, whatever follows in them. *)
Theorem unused_axes_entries_ignored (A : ndarray) (plt : option pyplot)
    (s : marker_size) (c : color) (kwargs : gmap string pyval)
    (l1 l2 : list Z) (w : world) :
  take (shown A) l1 = take (shown A) l2 ->
  plot A plt s c (<["axes" := VTuple l1]> kwargs) w =
  plot A plt s c (<["axes" := VTuple l2]> kwargs) w.
Proof.
  intros Ht. unfold shown in Ht. unfold plot.
  rewrite !kwarg_insert. rewrite !(kwarg_insert_ne _ "axes") by discriminate.
  unfold axis_label.
  destruct (ncols A <? 3)%nat.
  - rewrite (subscript_take l1 l2 2 0 Ht) by lia.
    rewrite (subscript_take l1 l2 2 1 Ht) by lia.
    reflexivity.
  - rewrite (subscript_take l1 l2 3 0 Ht) by lia.
    rewrite (subscript_take l1 l2 3 1 Ht) by lia.
    rewrite (subscript_take l1 l2 3 2 Ht) by lia.
    reflexivity.
Qed.

Lemma unused_axes_entries_ignored_witness :
  plot (sample_points 4) (Some sample_plt) default_s default_c
    (<["axes" := VTuple [3; 1; 0; 9; 9]]> ∅) loaded =
  plot (sample_points 4) (Some sample_plt) default_s default_c
    (<["axes" := VTuple [3; 1; 0]]> ∅) loaded.
Proof.
  apply (unused_axes_entries_ignored (sample_points 4)). reflexivity.
Defined.

(** X9: giving an option its default value is the same as not giving it:
    for each of the eight options, the call with the option set to the
    default of the source and the call with the option removed have the
    same outcome and leave the same objects. *)
Theorem explicit_default_is_omission (A : ndarray) (plt : option pyplot)
    (s : marker_size) (c : color) (kwargs : gmap string pyval)
    (key : string) (v : pyval) (w : world) :
  (key, v) ∈ defaults ->
  plot A plt s c (<[key := v]> kwargs) w =
  plot A plt s c (delete key kwargs) w.
Proof.
  intros Hin. unfold defaults in Hin.
  repeat (apply elem_of_cons in Hin as [Hin|Hin];
          [injection Hin as -> ->; unfold plot;
           rewrite kwarg_insert, kwarg_delete;
           rewrite !kwarg_insert_ne, !kwarg_delete_ne by discriminate;
           reflexivity|]).
  inversion Hin.
Qed.

Lemma explicit_default_is_omission_witness :
  plot (sample_points 3) (Some sample_plt) default_s default_c
    (<["euler" := VTuple [-60; 30]]> {["title" := VStr "Front"]}) loaded =
  plot (sample_points 3) (Some sample_plt) default_s default_c
    (delete "euler" {["title" := VStr "Front"]}) loaded.
Proof.
  apply (explicit_default_is_omission (sample_points 3)).
  unfold defaults. set_solver.
Defined.

Lemma bind_ext {T U} (m : M T) (k k' : T -> M U) w :
  (forall v w', k v w' = k' v w') -> bind m k w = bind m k' w.
Proof.
  intros Hk. unfold bind. destruct (m w) as [[v|e|] w']; try reflexivity.
  apply Hk.
Qed.

(** X10: [plot] depends on the point matrix only through its number of
    columns and the columns selected by the leading entries of [axes]: two
    matrices with as many columns that agree on every column selected at a
    displayed position give the same outcome and the same objects. *)
Theorem undisplayed_columns_do_not_matter (A A' : ndarray)
    (plt : option pyplot) (s : marker_size) (c : color)
    (kwargs : gmap string pyval) (w : world) :
  ncols A = ncols A' ->
  (forall i j, (i < shown A)%nat ->
     subscript (kwarg kwargs "axes" (VTuple [0; 1; 2])) i = Ok (VInt j) ->
     take_column A (VInt j) = take_column A' (VInt j)) ->
  plot A plt s c kwargs w = plot A' plt s c kwargs w.
Proof.
  intros Hn Hsel.
  assert (Hcol : forall i, (i < shown A)%nat ->
            forall B (k k' : list num -> M B) w0,
              (forall x w', k x w' = k' x w') ->
              (a <- lift (subscript (kwarg kwargs "axes" (VTuple [0; 1; 2])) i) ;;
               x <- lift (take_column A a) ;; k x) w0 =
              (a <- lift (subscript (kwarg kwargs "axes" (VTuple [0; 1; 2])) i) ;;
               x <- lift (take_column A' a) ;; k' x) w0).
  { intros i Hi B k k' w0 Hk. unfold bind at 1 3, lift at 1 3.
    destruct (subscript _ i) as [[|j|t|l]| |] eqn:E; try reflexivity.
    unfold bind, lift. rewrite (Hsel i j Hi E).
    destruct (take_column A' (VInt j)); try reflexivity. apply Hk. }
  unfold shown in Hcol. unfold plot. rewrite <- Hn.
  destruct plt as [plt|]; [|reflexivity].
  apply bind_ext; intros fig w1. apply bind_ext; intros [] w2.
  destruct (ncols A <? 3)%nat.
  - apply bind_ext; intros ax w3.
    apply (Hcol 0%nat); [lia|]; intros x w4.
    apply (Hcol 1%nat); [lia|]; intros y w5.
    reflexivity.
  - apply bind_ext; intros ax w3.
    apply (Hcol 0%nat); [lia|]; intros x w4.
    apply (Hcol 1%nat); [lia|]; intros y w5.
    apply (Hcol 2%nat); [lia|]; intros z w6.
    reflexivity.
Qed.

Lemma undisplayed_columns_do_not_matter_witness :
  plot (sample_points 4) (Some sample_plt) default_s default_c ∅ loaded =
  plot {| nrows := 2; ncols := 4;
          cell := fun i j => if (j <? 3)%nat then cell (sample_points 4) i j
                             else 0%Qc |}
    (Some sample_plt) default_s default_c ∅ loaded.
Proof.
  apply (undisplayed_columns_do_not_matter (sample_points 4)).
  - reflexivity.
  - intros i j Hi Hj.
    assert (Hi3 : (i < 3)%nat) by exact Hi.
    destruct i as [|[|[|i]]]; [| | |lia];
      injection Hj as <-; reflexivity.
Defined.
(** ** Columns and labels, axis by axis *)

(** What a well-formed call leaves along a displayed axis [d]: the column
    selected by [axes] at the position of [d] went to the scatter call, and
    the label is the template formatted with the selected index plus one. *)
Lemma plot_axis A plt s c kwargs w d :
  well_formed A plt s c kwargs = true ->
  (d = Z_ -> (3 <= ncols A)%nat) ->
  exists fig ax w' a j data txt fs sc,
    plot A (Some plt) s c kwargs w = (Ok (fig, ax), w') /\
    axes_objs w' !! ax = Some a /\
    subscript (kwarg kwargs "axes" (VTuple [0; 1; 2])) (axis_pos d)
      = Ok (VInt j) /\
    take_column A (VInt j) = Ok data /\
    format (kwarg kwargs "label_prefix" (VStr "$f_{:d}$")) (VInt (j + 1))
      = Ok txt /\
    as_fontsize (kwarg kwargs "label_fontsize" (VStr "large")) = Ok fs /\
    ax_scatter a = [sc] /\ sc_along d sc = Some data /\
    ax_label a d = Some {| label_text := txt; label_size := fs |}.
Proof.
  intros Hwf Hd. destruct (Nat.lt_ge_cases (ncols A) 3) as [Hc|Hc].
  - destruct (plot_flat A plt s c kwargs w Hwf Hc)
      as (i0 & i1 & x & y & bx & by_ & lx & ly & fs &
          Ha0 & Hx & Ha1 & Hy & _ & _ & Hlx & Hly & Hfs & Hrun).
    destruct d.
    + eexists _, _, _, _, i0, x, lx, fs, _. split; [exact Hrun|].
      split; [apply lookup_last|]. repeat (split; [assumption|]).
      split; [apply flat_scatter|]. split; reflexivity.
    + eexists _, _, _, _, i1, y, ly, fs, _. split; [exact Hrun|].
      split; [apply lookup_last|]. repeat (split; [assumption|]).
      split; [apply flat_scatter|]. split; reflexivity.
    + specialize (Hd eq_refl). lia.
  - destruct (plot_spatial A plt s c kwargs w Hwf Hc)
      as (i0 & i1 & i2 & x & y & z & bx & by_ & bz & lx & ly & lz & fs &
          az & el & Ha0 & Hx & Ha1 & Hy & Ha2 & Hz & _ & _ & _ &
          Hlx & Hly & Hlz & Hfs & _ & _ & Hrun).
    eexists _, _, _, _, (along i0 i1 i2 d), (along x y z d),
      (along lx ly lz d), fs, _.
    split; [exact Hrun|]. split; [apply lookup_last|].
    split; [destruct d; assumption|]. split; [destruct d; assumption|].
    split; [destruct d; assumption|]. split; [assumption|].
    split; [apply spatial_scatter|]. split; [destruct d; reflexivity|].
    apply spatial_label.
Qed.

(** X11: in the 2-D branch of a well-formed call the X and Y labels are
    [label_prefix] formatted with [axes[0] + 1] and [axes[1] + 1], at the
    requested font size; label rotation and camera are left untouched (a 2-D
    axes has none set). *)
Theorem flat_axes_are_labelled (A : ndarray) (plt : pyplot) (s : marker_size)
    (c : color) (kwargs : gmap string pyval) (w : world) :
  (ncols A < 3)%nat ->
  well_formed A plt s c kwargs = true ->
  exists fig ax w' a i0 i1 lx ly fs,
    plot A (Some plt) s c kwargs w = (Ok (fig, ax), w') /\
    axes_objs w' !! ax = Some a /\
    subscript (kwarg kwargs "axes" (VTuple [0; 1; 2])) 0 = Ok (VInt i0) /\
    subscript (kwarg kwargs "axes" (VTuple [0; 1; 2])) 1 = Ok (VInt i1) /\
    format (kwarg kwargs "label_prefix" (VStr "$f_{:d}$")) (VInt (i0 + 1))
      = Ok lx /\
    format (kwarg kwargs "label_prefix" (VStr "$f_{:d}$")) (VInt (i1 + 1))
      = Ok ly /\
    as_fontsize (kwarg kwargs "label_fontsize" (VStr "large")) = Ok fs /\
    ax_label a X = Some {| label_text := lx; label_size := fs |} /\
    ax_label a Y = Some {| label_text := ly; label_size := fs |} /\
    (forall d, ax_rotate_label a d = None) /\
    ax_view a = None.
Proof.
  intros Hc Hwf.
  destruct (plot_flat A plt s c kwargs w Hwf Hc)
    as (i0 & i1 & x & y & bx & by_ & lx & ly & fs &
        Ha0 & _ & Ha1 & _ & _ & _ & Hlx & Hly & Hfs & Hrun).
  eexists _, _, _, _, i0, i1, lx, ly, fs.
  split; [exact Hrun|]. split; [apply lookup_last|].
  repeat (split; [assumption|]).
  split; [reflexivity|]. split; [reflexivity|]. split; [|reflexivity].
  intros d. reflexivity.
Qed.

Lemma flat_axes_are_labelled_witness :
  (ncols (sample_points 2) < 3)%nat /\
  well_formed (sample_points 2) sample_plt default_s default_c
    {["label_prefix" := VStr "x{}"; "label_fontsize" := VInt 14]} = true /\
  exists fig ax w' a,
    plot (sample_points 2) (Some sample_plt) default_s default_c
      {["label_prefix" := VStr "x{}"; "label_fontsize" := VInt 14]} loaded =
      (Ok (fig, ax), w') /\
    axes_objs w' !! ax = Some a /\
    ax_label a X = Some {| label_text := "x1"; label_size := FontPoints 14 |} /\
    ax_label a Y = Some {| label_text := "x2"; label_size := FontPoints 14 |}.
Proof.
  assert (Hc : (ncols (sample_points 2) < 3)%nat) by (simpl; lia).
  assert (Hwf : well_formed (sample_points 2) sample_plt default_s default_c
                  {["label_prefix" := VStr "x{}"; "label_fontsize" := VInt 14]}
                = true) by (vm_compute; reflexivity).
  split; [exact Hc|]. split; [exact Hwf|].
  destruct (flat_axes_are_labelled (sample_points 2) sample_plt default_s
              default_c _ loaded Hc Hwf)
    as (fig & ax & w' & a & i0 & i1 & lx & ly & fs &
        Hrun & Hax & Ha0 & Ha1 & Hlx & Hly & Hfs & HX & HY & _).
  vm_compute in Ha0, Ha1. injection Ha0 as <-. injection Ha1 as <-.
  vm_compute in Hlx, Hly, Hfs.
  injection Hlx as <-. injection Hly as <-. injection Hfs as <-.
  exists fig, ax, w', a. repeat (split; [assumption|]). assumption.
Defined.

Lemma format_default n :
  format (VStr "$f_{:d}$") (VInt n) = Ok ("$f_" +:+ pretty n +:+ "$").
Proof. reflexivity. Qed.

(** X12: without a [label_prefix] option, the label of every displayed
    axis is the text [$f_n$] where [n] is the decimal numeral of the
    selected column index plus one, in both branches. *)
Theorem default_label_text (A : ndarray) (plt : pyplot) (s : marker_size)
    (c : color) (kwargs : gmap string pyval) (w : world) (d : axis) :
  well_formed A plt s c kwargs = true ->
  (d = Z_ -> (3 <= ncols A)%nat) ->
  kwargs !! "label_prefix" = None ->
  exists fig ax w' a j fs,
    plot A (Some plt) s c kwargs w = (Ok (fig, ax), w') /\
    axes_objs w' !! ax = Some a /\
    subscript (kwarg kwargs "axes" (VTuple [0; 1; 2])) (axis_pos d)
      = Ok (VInt j) /\
    ax_label a d =
      Some {| label_text := "$f_" +:+ pretty (j + 1) +:+ "$";
              label_size := fs |}.
Proof.
  intros Hwf Hd Hp.
  destruct (plot_axis A plt s c kwargs w d Hwf Hd)
    as (fig & ax & w' & a & j & data & txt & fs & sc &
        Hrun & Hax & Hj & _ & Htxt & _ & _ & _ & Hl).
  exists fig, ax, w', a, j, fs. repeat (split; [assumption|]).
  unfold kwarg in Htxt at 1. rewrite Hp, format_default in Htxt.
  injection Htxt as <-. exact Hl.
Qed.

Lemma default_label_text_witness :
  exists fig ax w' a j fs,
    plot (sample_points 12) (Some sample_plt) default_s default_c
      {["axes" := VTuple [4; 9; 11]]} loaded = (Ok (fig, ax), w') /\
    axes_objs w' !! ax = Some a /\
    subscript (kwarg {["axes" := VTuple [4; 9; 11]]} "axes" (VTuple [0; 1; 2]))
      (axis_pos Y) = Ok (VInt j) /\
    ax_label a Y =
      Some {| label_text := "$f_" +:+ pretty (j + 1) +:+ "$";
              label_size := fs |}.
Proof.
  apply (default_label_text (sample_points 12) sample_plt default_s default_c
           {["axes" := VTuple [4; 9; 11]]} loaded Y);
    [vm_compute; reflexivity | discriminate | reflexivity].
Defined.

(** X13: a negative entry [j] of [axes] selects the column counted from
    the end, column [m + j] of an [m]-column matrix, and that column is what
    the scatter call receives along the axis; the label however is
    formatted with [j + 1], a number that is zero or negative, not with the
    one-based number of the column drawn. *)
Theorem negative_index_counts_from_the_end (A : ndarray) (plt : pyplot)
    (s : marker_size) (c : color) (kwargs : gmap string pyval) (w : world)
    (d : axis) (j : Z) :
  well_formed A plt s c kwargs = true ->
  (d = Z_ -> (3 <= ncols A)%nat) ->
  subscript (kwarg kwargs "axes" (VTuple [0; 1; 2])) (axis_pos d)
    = Ok (VInt j) ->
  j < 0 ->
  exists fig ax w' a sc txt fs,
    plot A (Some plt) s c kwargs w = (Ok (fig, ax), w') /\
    axes_objs w' !! ax = Some a /\
    ax_scatter a = [sc] /\
    sc_along d sc = Some (column_at A (Z.to_nat (Z.of_nat (ncols A) + j))) /\
    0 <= Z.of_nat (ncols A) + j /\
    format (kwarg kwargs "label_prefix" (VStr "$f_{:d}$")) (VInt (j + 1))
      = Ok txt /\
    ax_label a d = Some {| label_text := txt; label_size := fs |}.
Proof.
  intros Hwf Hd Hj Hneg.
  destruct (plot_axis A plt s c kwargs w d Hwf Hd)
    as (fig & ax & w' & a & j' & data & txt & fs & sc &
        Hrun & Hax & Hj' & Hdata & Htxt & _ & Hsc & Halong & Hl).
  rewrite Hj in Hj'. injection Hj' as <-.
  exists fig, ax, w', a, sc, txt, fs. repeat (split; [assumption|]).
  destruct (Z_lt_le_dec j (- Z.of_nat (ncols A))) as [Hout|Hin].
  { rewrite take_column_outside in Hdata by lia. discriminate. }
  rewrite take_column_inside in Hdata by lia.
  assert ((0 <=? j) = false) as E by (apply Z.leb_gt; lia).
  rewrite E in Hdata. injection Hdata as <-.
  split; [exact Halong|]. split; [lia|]. split; assumption.
Qed.

Lemma negative_index_counts_from_the_end_witness :
  exists fig ax w' a sc txt fs,
    plot (sample_points 5) (Some sample_plt) default_s default_c
      {["axes" := VTuple [0; 1; -1]]} loaded = (Ok (fig, ax), w') /\
    axes_objs w' !! ax = Some a /\
    ax_scatter a = [sc] /\
    sc_along Z_ sc =
      Some (column_at (sample_points 5)
              (Z.to_nat (Z.of_nat (ncols (sample_points 5)) + -1))) /\
    0 <= Z.of_nat (ncols (sample_points 5)) + -1 /\
    format (kwarg {["axes" := VTuple [0; 1; -1]]} "label_prefix"
              (VStr "$f_{:d}$")) (VInt (-1 + 1)) = Ok txt /\
    ax_label a Z_ = Some {| label_text := txt; label_size := fs |}.
Proof.
  apply (negative_index_counts_from_the_end (sample_points 5) sample_plt
           default_s default_c {["axes" := VTuple [0; 1; -1]]} loaded Z_ (-1));
    [vm_compute; reflexivity | simpl; lia | reflexivity | lia].
Defined.
(** ** Templates without a field, and templates that fail *)

Lemma format_scan_brace_free num n t :
  brace_free t = true -> format_scan InText num n t = Ok t.
Proof.
  induction t as [|ch r IH]; intros H; [reflexivity|].
  simpl in H. apply andb_prop in H as [H Hr]. apply andb_prop in H as [Ho Hc].
  specialize (IH Hr).
  destruct ch as [b0 b1 b2 b3 b4 b5 b6 b7].
  destruct b0, b1, b2, b3, b4, b5, b6, b7;
    try discriminate; simpl; rewrite IH; reflexivity.
Qed.

(** X14: a [label_prefix] without braces has no replacement field: the
    column number is dropped without an error and every displayed axis is
    labelled with the prefix itself. *)
Theorem label_without_field (A : ndarray) (plt : pyplot) (s : marker_size)
    (c : color) (kwargs : gmap string pyval) (w : world) (d : axis)
    (t : string) :
  well_formed A plt s c kwargs = true ->
  (d = Z_ -> (3 <= ncols A)%nat) ->
  kwargs !! "label_prefix" = Some (VStr t) ->
  brace_free t = true ->
  exists fig ax w' a fs,
    plot A (Some plt) s c kwargs w = (Ok (fig, ax), w') /\
    axes_objs w' !! ax = Some a /\
    ax_label a d = Some {| label_text := t; label_size := fs |}.
Proof.
  intros Hwf Hd Hp Hb.
  destruct (plot_axis A plt s c kwargs w d Hwf Hd)
    as (fig & ax & w' & a & j & data & txt & fs & sc &
        Hrun & Hax & _ & _ & Htxt & _ & _ & _ & Hl).
  exists fig, ax, w', a, fs. repeat (split; [assumption|]).
  rewrite (kwarg_lookup _ _ _ _ Hp) in Htxt.
  change (format (VStr t) (VInt (j + 1)))
    with (format_scan InText NoField (j + 1) t) in Htxt.
  rewrite format_scan_brace_free in Htxt by assumption.
  injection Htxt as <-. exact Hl.
Qed.

Lemma label_without_field_witness :
  exists fig ax w' a fs,
    plot (sample_points 3) (Some sample_plt) default_s default_c
      {["label_prefix" := VStr "cost"]} loaded = (Ok (fig, ax), w') /\
    axes_objs w' !! ax = Some a /\
    ax_label a Z_ = Some {| label_text := "cost"; label_size := fs |}.
Proof.
  apply (label_without_field (sample_points 3) sample_plt default_s default_c
           {["label_prefix" := VStr "cost"]} loaded Z_ "cost");
    [vm_compute; reflexivity | simpl; lia | reflexivity | reflexivity].
Defined.

Lemma bind_axis_label_raise {B} label_prefix axes i j e (k : string -> M B) w :
  subscript axes i = Ok (VInt j) ->
  format label_prefix (VInt (j + 1)) = Raise e ->
  bind (axis_label label_prefix axes i) k w = (Raise e, w).
Proof.
  intros Hs Hf. unfold format in Hf. unfold axis_label.
  destruct (format_method label_prefix) as [fmt|e'|]; simpl in Hf.
  - unfold bind, lift. rewrite Hs. simpl. now rewrite Hf.
  - injection Hf as ->. reflexivity.
  - discriminate.
Qed.

Lemma index_ok_column A p r :
  index_ok A p r = true ->
  exists j x, r = Ok (VInt j) /\ take_column A (VInt j) = Ok x.
Proof.
  intros H. destruct (index_ok_inv A p r H) as (j & x & txt & Hr & Hx & _).
  eauto.
Qed.

(** X15: the label template is used for the first time when the X label
    is built.  When the call is otherwise well-formed (it would go through
    with the default template) and formatting the first label raises (a
    [label_prefix] that is not a string, an unmatched brace, a field index
    that is not 0 or does not fit a machine integer), [plot] raises that
    exception after the points have been scattered with the given size and
    colour: the figure, titled if a title was given, and the axes stay, and
    the axes has no label on any axis. *)
Theorem bad_template_fails_after_drawing (A : ndarray) (plt : pyplot)
    (s : marker_size) (c : color) (kwargs : gmap string pyval) (w : world)
    (i0 : Z) (e : exn) :
  well_formed A plt s c (delete "label_prefix" kwargs) = true ->
  subscript (kwarg kwargs "axes" (VTuple [0; 1; 2])) 0 = Ok (VInt i0) ->
  format (kwarg kwargs "label_prefix" (VStr "$f_{:d}$")) (VInt (i0 + 1))
    = Raise e ->
  exists f a sc,
    plot A (Some plt) s c kwargs w = (Raise e, stage w f a) /\
    fig_suptitle f = title_text (kwarg kwargs "title" VNone) /\
    ax_kind a = kind_for A /\
    ax_scatter a = [sc] /\ sc_s sc = s /\ sc_c sc = c /\
    (forall d, ax_label a d = None).
Proof.
  intros Hwf Ha0 Hfail.
  destruct (well_formed_common _ _ _ _ _ Hwf) as (Hst & _ & Hxb & Hyb & Ht).
  rewrite kwarg_delete_ne in Hst, Hxb, Hyb, Ht by discriminate.
  pose proof (well_formed_index _ _ _ _ _ Hwf) as Hidx.
  pose proof (well_formed_spatial _ _ _ _ _ Hwf) as Hsp.
  rewrite !kwarg_delete_ne in Hsp by discriminate.
  unfold shown in Hidx. unfold style_ok in Hst. unfold plot, kind_for.
  destruct (ncols A <? 3)%nat eqn:Hc.
  - destruct (index_ok_column _ _ _ (Hidx 0%nat ltac:(lia)))
      as (j0 & x & H0 & Hx).
    destruct (index_ok_column _ _ _ (Hidx 1%nat ltac:(lia)))
      as (j1 & y & H1 & Hy).
    rewrite kwarg_delete_ne in H0, H1 by discriminate.
    rewrite (selected_column _ _ _ _ _ H0 Hx), (selected_column _ _ _ _ _ H1 Hy)
      in Hst.
    apply accepts_inv in Hst.
    destruct (bound_ok_inv _ _ (autoscale plt X x (fresh_limits plt X)) Hxb)
      as [bx Hbx].
    destruct (bound_ok_inv _ _ (autoscale plt Y y (fresh_limits plt Y)) Hyb)
      as [by_ Hby].
    rewrite (open_figure plt _ Axes2D gca); [|intros; apply gca_last|assumption].
    rewrite (bind_lift _ _ _ _ H0), (bind_lift _ _ _ _ Hx).
    rewrite (bind_lift _ _ _ _ H1), (bind_lift _ _ _ _ Hy).
    rewrite bind_scatter_stage; [|reflexivity|exact Hst].
    erewrite bind_bound_stage; [|reflexivity|exact Hbx].
    erewrite bind_bound_stage; [|reflexivity|exact Hby].
    rewrite (bind_axis_label_raise _ _ _ _ _ _ _ Ha0 Hfail).
    eexists _, _, _. split; [reflexivity|]. repeat split.
  - apply Nat.ltb_ge in Hc. destruct (Hsp Hc) as [Hzb _].
    destruct (index_ok_column _ _ _ (Hidx 0%nat ltac:(lia)))
      as (j0 & x & H0 & Hx).
    destruct (index_ok_column _ _ _ (Hidx 1%nat ltac:(lia)))
      as (j1 & y & H1 & Hy).
    destruct (index_ok_column _ _ _ (Hidx 2%nat ltac:(lia)))
      as (j2 & z & H2 & Hz).
    rewrite kwarg_delete_ne in H0, H1, H2 by discriminate.
    rewrite (selected_column _ _ _ _ _ H0 Hx), (selected_column _ _ _ _ _ H1 Hy),
      (selected_column _ _ _ _ _ H2 Hz) in Hst.
    apply accepts_inv in Hst.
    destruct (bound_ok_inv _ _ (autoscale plt X x (fresh_limits plt X)) Hxb)
      as [bx Hbx].
    destruct (bound_ok_inv _ _ (autoscale plt Y y (fresh_limits plt Y)) Hyb)
      as [by_ Hby].
    destruct (bound_ok_inv _ _ (autoscale plt Z_ z (fresh_limits plt Z_)) Hzb)
      as [bz Hbz].
    rewrite (open_figure plt _ Axes3D_ Axes3D);
      [|intros; apply Axes3D_last|assumption].
    rewrite (bind_lift _ _ _ _ H0), (bind_lift _ _ _ _ Hx).
    rewrite (bind_lift _ _ _ _ H1), (bind_lift _ _ _ _ Hy).
    rewrite (bind_lift _ _ _ _ H2), (bind_lift _ _ _ _ Hz).
    rewrite bind_scatter_stage; [|reflexivity|exact Hst].
    erewrite bind_bound_stage; [|reflexivity|exact Hbx].
    erewrite bind_bound_stage; [|reflexivity|exact Hby].
    erewrite bind_bound_stage; [|reflexivity|exact Hbz].
    rewrite (bind_axis_label_raise _ _ _ _ _ _ _ Ha0 Hfail).
    eexists _, _, _. split; [reflexivity|]. repeat split.
Qed.

Lemma bad_template_fails_after_drawing_witness :
  exists f a sc,
    plot (sample_points 3) (Some sample_plt) default_s default_c
      {["label_prefix" := VStr "f_{"]} loaded =
      (Raise ValueError, stage loaded f a) /\
    fig_suptitle f =
      title_text (kwarg {["label_prefix" := VStr "f_{"]} "title" VNone) /\
    ax_kind a = kind_for (sample_points 3) /\
    ax_scatter a = [sc] /\ sc_s sc = default_s /\ sc_c sc = default_c /\
    (forall d, ax_label a d = None).
Proof.
  apply (bad_template_fails_after_drawing (sample_points 3) sample_plt
           default_s default_c {["label_prefix" := VStr "f_{"]} loaded 0
           ValueError);
    [vm_compute; reflexivity | reflexivity | reflexivity].
Defined.

(** ** The scattered coordinates *)

Lemma take_column_length A v x : take_column A v = Ok x -> length x = nrows A.
Proof.
  unfold take_column. destruct v as [|j|t|l]; try discriminate.
  destruct (_ && _); [|destruct (_ && _); [|discriminate]];
    intros H; injection H as <-; unfold column_at;
    now rewrite length_map, length_seq.
Qed.

(** X16: in a well-formed call every coordinate list handed to the scatter
    call has exactly one entry per point (row) of the matrix, so the lists
    have equal lengths; a matrix without rows is not an error and gives
    empty lists.  The call has Z coordinates exactly in the 3-D branch. *)
Theorem scattered_columns_have_one_entry_per_point (A : ndarray)
    (plt : pyplot) (s : marker_size) (c : color) (kwargs : gmap string pyval)
    (w : world) :
  well_formed A plt s c kwargs = true ->
  exists fig ax w' a sc,
    plot A (Some plt) s c kwargs w = (Ok (fig, ax), w') /\
    axes_objs w' !! ax = Some a /\
    ax_scatter a = [sc] /\
    (forall d data, sc_along d sc = Some data -> length data = nrows A) /\
    (sc_along Z_ sc = None <-> (ncols A < 3)%nat).
Proof.
  intros Hwf. destruct (Nat.lt_ge_cases (ncols A) 3) as [Hc|Hc].
  - destruct (plot_flat A plt s c kwargs w Hwf Hc)
      as (i0 & i1 & x & y & bx & by_ & lx & ly & fs &
          _ & Hx & _ & Hy & _ & _ & _ & _ & _ & Hrun).
    eexists _, _, _, _, _. split; [exact Hrun|].
    split; [apply lookup_last|]. split; [apply flat_scatter|].
    split.
    + intros d data Hd. destruct d; simpl in Hd; try discriminate;
        injection Hd as <-; eapply take_column_length; eassumption.
    + simpl. split; [intros _; exact Hc|reflexivity].
  - destruct (plot_spatial A plt s c kwargs w Hwf Hc)
      as (i0 & i1 & i2 & x & y & z & bx & by_ & bz & lx & ly & lz & fs &
          az & el & _ & Hx & _ & Hy & _ & Hz &
          _ & _ & _ & _ & _ & _ & _ & _ & _ & Hrun).
    eexists _, _, _, _, _. split; [exact Hrun|].
    split; [apply lookup_last|]. split; [apply spatial_scatter|].
    split.
    + intros d data Hd. destruct d; simpl in Hd;
        injection Hd as <-; eapply take_column_length; eassumption.
    + simpl. split; [discriminate|lia].
Qed.

Lemma scattered_columns_have_one_entry_per_point_witness :
  exists fig ax w' a sc,
    plot {| nrows := 0; ncols := 3; cell := fun _ _ => 0%Qc |}
      (Some sample_plt) default_s default_c ∅ loaded = (Ok (fig, ax), w') /\
    axes_objs w' !! ax = Some a /\
    ax_scatter a = [sc] /\
    (forall d data, sc_along d sc = Some data -> length data = 0%nat) /\
    (sc_along Z_ sc = None <-> (3 < 3)%nat).
Proof.
  apply (scattered_columns_have_one_entry_per_point
           {| nrows := 0; ncols := 3; cell := fun _ _ => 0%Qc |} sample_plt).
  vm_compute; reflexivity.
Defined.

(** ** What a normal return tells *)

Lemma bind_ok_inv {T U} (m : M T) (k : T -> M U) w r w' :
  bind m k w = (Ok r, w') ->
  exists v w1, m w = (Ok v, w1) /\ k v w1 = (Ok r, w').
Proof.
  unfold bind. destruct (m w) as [[v|e|] w1]; try discriminate. eauto.
Qed.

Lemma bind_selected_ok_inv {B} A axes i (k : list num -> M B) w r w' :
  (a <- lift (subscript axes i) ;; x <- lift (take_column A a) ;; k x) w
    = (Ok r, w') ->
  exists x, selected A axes i = Ok x /\ k x w = (Ok r, w').
Proof.
  rewrite bind_selected.
  destruct (selected A axes i) as [x| |]; try discriminate. eauto.
Qed.

Lemma selected_ok_inv A axes i x :
  selected A axes i = Ok x ->
  exists j, subscript axes i = Ok (VInt j) /\
            - Z.of_nat (ncols A) <= j < Z.of_nat (ncols A).
Proof.
  unfold selected. destruct (subscript axes i) as [[|j|t|l]| |];
    try discriminate. cbn [rbind]. intros H. exists j. split; [reflexivity|].
  destruct (Z_lt_le_dec j (- Z.of_nat (ncols A))) as [Hlo|Hlo];
    [rewrite take_column_outside in H by lia; discriminate|].
  destruct (Z_lt_le_dec j (Z.of_nat (ncols A))) as [Hhi|Hhi];
    [lia|rewrite take_column_outside in H by lia; discriminate].
Qed.

(** X17: [plot] returns normally only if an engine handle was given and
    every displayed position of [axes] holds an integer that indexes an
    existing column, from the front or from the end. *)
Theorem returns_only_with_engine_and_columns (A : ndarray)
    (plt : option pyplot) (s : marker_size) (c : color)
    (kwargs : gmap string pyval) (w : world) (r : nat * nat) (w' : world) :
  plot A plt s c kwargs w = (Ok r, w') ->
  plt <> None /\
  forall i, (i < shown A)%nat ->
    exists j,
      subscript (kwarg kwargs "axes" (VTuple [0; 1; 2])) i = Ok (VInt j) /\
      - Z.of_nat (ncols A) <= j < Z.of_nat (ncols A).
Proof.
  intros H. unfold plot in H. destruct plt as [plt|]; [|discriminate].
  split; [discriminate|]. unfold shown.
  apply bind_ok_inv in H as (fig & w1 & _ & H).
  apply bind_ok_inv in H as ([] & w2 & _ & H).
  destruct (ncols A <? 3)%nat.
  - apply bind_ok_inv in H as (ax & w3 & _ & H).
    apply bind_selected_ok_inv in H as (x & H0 & H).
    apply bind_selected_ok_inv in H as (y & H1 & _).
    intros i Hi. destruct i as [|[|i]]; [| |lia];
      eapply selected_ok_inv; eassumption.
  - apply bind_ok_inv in H as (ax & w3 & _ & H).
    apply bind_selected_ok_inv in H as (x & H0 & H).
    apply bind_selected_ok_inv in H as (y & H1 & H).
    apply bind_selected_ok_inv in H as (z & H2 & _).
    intros i Hi. destruct i as [|[|[|i]]]; [| | |lia];
      eapply selected_ok_inv; eassumption.
Qed.

Lemma returns_only_with_engine_and_columns_witness :
  Some sample_plt <> None /\
  forall i, (i < shown (sample_points 3))%nat ->
    exists j,
      subscript (kwarg {["axes" := VTuple [2; -3; 1]]} "axes"
                   (VTuple [0; 1; 2])) i = Ok (VInt j) /\
      - Z.of_nat (ncols (sample_points 3)) <= j
        < Z.of_nat (ncols (sample_points 3)).
Proof.
  destruct (plot_stage (sample_points 3) sample_plt default_s default_c
              {["axes" := VTuple [2; -3; 1]]} loaded)
    as (f & a & Hrun & _); [vm_compute; reflexivity|].
  exact (returns_only_with_engine_and_columns (sample_points 3)
           (Some sample_plt) default_s default_c
           {["axes" := VTuple [2; -3; 1]]} loaded _ _ Hrun).
Defined.

(** ** A camera option that cannot be read *)




(** ** What the engine refuses *)

Lemma bind_call_raise {B} w f a method e (k : unit -> M B) :
  method a = Raise e ->
  bind (call (length (axes_objs w)) method) k (stage w f a) =
  (Raise e, stage w f a).
Proof. intros H. now rewrite bind_call_stage, H. Qed.

(** X19: the sizes and the colours are not checked by [plot]; the engine
    sees them in the scatter call.  When the columns select fine and the
    engine refuses the sizes or the colours for them, [plot] raises the
    engine's exception unchanged and leaves the new figure, titled if a
    title was given, and its fresh axes, on which nothing is drawn. *)
Theorem refused_style_propagates (A : ndarray) (plt : pyplot)
    (s : marker_size) (c : color) (kwargs : gmap string pyval) (w : world)
    (x y : list num) (zs : option (list num)) (e : exn) :
  title_ok (kwarg kwargs "title" VNone) = true ->
  selected A (kwarg kwargs "axes" (VTuple [0; 1; 2])) 0 = Ok x ->
  selected A (kwarg kwargs "axes" (VTuple [0; 1; 2])) 1 = Ok y ->
  (if (ncols A <? 3)%nat then zs = None
   else exists z,
     selected A (kwarg kwargs "axes" (VTuple [0; 1; 2])) 2 = Ok z /\
     zs = Some z) ->
  scatter_error plt x y zs s c = Some e ->
  plot A (Some plt) s c kwargs w =
    (Raise e, opened A plt (kwarg kwargs "title" VNone) w).
Proof.
  intros Ht Hx Hy Hz He. unfold plot, opened, kind_for.
  destruct (ncols A <? 3)%nat.
  - subst zs.
    rewrite (open_figure plt _ Axes2D gca); [|intros; apply gca_last|assumption].
    rewrite bind_selected, Hx, bind_selected, Hy.
    apply bind_call_raise. unfold Axes.scatter. simpl. now rewrite He.
  - destruct Hz as (z & Hz & ->).
    rewrite (open_figure plt _ Axes3D_ Axes3D);
      [|intros; apply Axes3D_last|assumption].
    rewrite bind_selected, Hx, bind_selected, Hy, bind_selected, Hz.
    apply bind_call_raise. unfold Axes.scatter. simpl. now rewrite He.
Qed.

Lemma refused_style_propagates_witness :
  plot (sample_points 2) (Some sample_plt)
    (SizeArray [1%Qc; 1%Qc; 1%Qc]) (ColorSpec "nope") ∅ loaded =
  (Raise ValueError,
   opened (sample_points 2) sample_plt (kwarg ∅ "title" VNone) loaded).
Proof.
  apply (refused_style_propagates (sample_points 2) sample_plt
           (SizeArray [1%Qc; 1%Qc; 1%Qc]) (ColorSpec "nope") ∅ loaded
           (column_at (sample_points 2) 0) (column_at (sample_points 2) 1)
           None ValueError);
    reflexivity.
Defined.


Lemma bind_bound_raise {B} w f a d v old e (k : unit -> M B) :
  ax_limits a d = Some old ->
  Axes.as_bound (ax_engine a) (Given v) = Raise e ->
  (arg <- bound_or (ask (length (axes_objs w)) (Axes.get_bound d)) v ;;
   bind (call (length (axes_objs w)) (Axes.set_bound d arg)) k) (stage w f a) =
  (Raise e, stage w f a).
Proof.
  intros Hold Hb. rewrite bind_bound_or_stage.
  assert (is_None v = false) as ->
    by (destruct v; try reflexivity; discriminate).
  apply bind_call_raise. unfold Axes.set_bound. now rewrite Hold, Hb.
Qed.

(** X21: a bound is not checked by [plot]; the engine sees it in the bound
    setter of its axis.  When the call would go through without the bound
    of the axis [d] and the engine raises on the value given (an integer it
    has no number for), [plot] raises the engine's exception unchanged,
    after the points have been scattered: the limits of [d] are still the
    ones the engine computed from the data, and no axis has a label. *)
Theorem refused_bound_propagates (A : ndarray) (plt : pyplot)
    (s : marker_size) (c : color) (kwargs : gmap string pyval) (w : world)
    (d : axis) (v : pyval) (e : exn) :
  well_formed A plt s c (delete (bound_key d) kwargs) = true ->
  (d = Z_ -> (3 <= ncols A)%nat) ->
  kwargs !! bound_key d = Some v ->
  Axes.as_bound plt (Given v) = Raise e ->
  exists f a sc data,
    plot A (Some plt) s c kwargs w = (Raise e, stage w f a) /\
    ax_scatter a = [sc] /\
    selected A (kwarg kwargs "axes" (VTuple [0; 1; 2])) (axis_pos d)
      = Ok data /\
    ax_limits a d = Some (autoscale plt d data (fresh_limits plt d)) /\
    (forall d', ax_label a d' = None).
Proof.
  intros Hwf Hd Hv He.
  destruct (well_formed_common _ _ _ _ _ Hwf) as (Hst & _ & Hxb & Hyb & Ht).
  pose proof (well_formed_index _ _ _ _ _ Hwf) as Hidx.
  pose proof (well_formed_spatial _ _ _ _ _ Hwf) as Hsp.
  unfold shown in Hidx. unfold style_ok in Hst. unfold plot.
  destruct (ncols A <? 3)%nat eqn:Hc.
  - destruct (index_ok_column _ _ _ (Hidx 0%nat ltac:(lia)))
      as (j0 & x & H0 & Hx).
    destruct (index_ok_column _ _ _ (Hidx 1%nat ltac:(lia)))
      as (j1 & y & H1 & Hy).
    destruct d; simpl in Hv;
      [| |apply Nat.ltb_lt in Hc; specialize (Hd eq_refl); lia];
      simpl bound_key in *;
      rewrite kwarg_delete_ne in Hst, Ht, H0, H1 by discriminate;
      rewrite (selected_column _ _ _ _ _ H0 Hx),
        (selected_column _ _ _ _ _ H1 Hy) in Hst;
      apply accepts_inv in Hst;
      (rewrite (open_figure plt _ Axes2D gca);
         [|intros; apply gca_last|assumption]);
      rewrite (bind_lift _ _ _ _ H0), (bind_lift _ _ _ _ Hx);
      rewrite (bind_lift _ _ _ _ H1), (bind_lift _ _ _ _ Hy);
      (rewrite bind_scatter_stage; [|reflexivity|exact Hst]).
    + rewrite (kwarg_lookup _ _ _ _ Hv).
      erewrite (bind_bound_raise _ _ _ X v _ e); [|reflexivity|exact He].
      eexists _, _, _, x. split; [reflexivity|].
      split; [reflexivity|]. split; [exact (selected_column _ _ _ _ _ H0 Hx)|].
      split; [reflexivity|]. intros d'; reflexivity.
    + rewrite kwarg_delete_ne in Hxb by discriminate.
      destruct (bound_ok_inv _ _ (autoscale plt X x (fresh_limits plt X)) Hxb)
        as [bx Hbx].
      erewrite bind_bound_stage; [|reflexivity|exact Hbx].
      rewrite (kwarg_lookup _ _ _ _ Hv).
      erewrite (bind_bound_raise _ _ _ Y v _ e); [|reflexivity|exact He].
      eexists _, _, _, y. split; [reflexivity|].
      split; [reflexivity|]. split; [exact (selected_column _ _ _ _ _ H1 Hy)|].
      split; [reflexivity|]. intros d'; reflexivity.
  - apply Nat.ltb_ge in Hc. destruct (Hsp Hc) as [Hzb _].
    destruct (index_ok_column _ _ _ (Hidx 0%nat ltac:(lia)))
      as (j0 & x & H0 & Hx).
    destruct (index_ok_column _ _ _ (Hidx 1%nat ltac:(lia)))
      as (j1 & y & H1 & Hy).
    destruct (index_ok_column _ _ _ (Hidx 2%nat ltac:(lia)))
      as (j2 & z & H2 & Hz).
    destruct d; simpl in Hv; simpl bound_key in *;
      rewrite kwarg_delete_ne in Hst, Ht, H0, H1, H2 by discriminate;
      rewrite (selected_column _ _ _ _ _ H0 Hx),
        (selected_column _ _ _ _ _ H1 Hy),
        (selected_column _ _ _ _ _ H2 Hz) in Hst;
      apply accepts_inv in Hst;
      (rewrite (open_figure plt _ Axes3D_ Axes3D);
         [|intros; apply Axes3D_last|assumption]);
      rewrite (bind_lift _ _ _ _ H0), (bind_lift _ _ _ _ Hx);
      rewrite (bind_lift _ _ _ _ H1), (bind_lift _ _ _ _ Hy);
      rewrite (bind_lift _ _ _ _ H2), (bind_lift _ _ _ _ Hz);
      (rewrite bind_scatter_stage; [|reflexivity|exact Hst]).
    + rewrite (kwarg_lookup _ _ _ _ Hv).
      erewrite (bind_bound_raise _ _ _ X v _ e); [|reflexivity|exact He].
      eexists _, _, _, x. split; [reflexivity|].
      split; [reflexivity|]. split; [exact (selected_column _ _ _ _ _ H0 Hx)|].
      split; [reflexivity|]. intros d'; reflexivity.
    + rewrite kwarg_delete_ne in Hxb by discriminate.
      destruct (bound_ok_inv _ _ (autoscale plt X x (fresh_limits plt X)) Hxb)
        as [bx Hbx].
      erewrite bind_bound_stage; [|reflexivity|exact Hbx].
      rewrite (kwarg_lookup _ _ _ _ Hv).
      erewrite (bind_bound_raise _ _ _ Y v _ e); [|reflexivity|exact He].
      eexists _, _, _, y. split; [reflexivity|].
      split; [reflexivity|]. split; [exact (selected_column _ _ _ _ _ H1 Hy)|].
      split; [reflexivity|]. intros d'; reflexivity.
    + rewrite kwarg_delete_ne in Hxb, Hyb by discriminate.
      destruct (bound_ok_inv _ _ (autoscale plt X x (fresh_limits plt X)) Hxb)
        as [bx Hbx].
      destruct (bound_ok_inv _ _ (autoscale plt Y y (fresh_limits plt Y)) Hyb)
        as [by_ Hby].
      erewrite bind_bound_stage; [|reflexivity|exact Hbx].
      erewrite bind_bound_stage; [|reflexivity|exact Hby].
      rewrite (kwarg_lookup _ _ _ _ Hv).
      erewrite (bind_bound_raise _ _ _ Z_ v _ e); [|reflexivity|exact He].
      eexists _, _, _, z. split; [reflexivity|].
      split; [reflexivity|]. split; [exact (selected_column _ _ _ _ _ H2 Hz)|].
      split; [reflexivity|]. intros d'; reflexivity.
Qed.

Lemma refused_bound_propagates_witness :
  exists f a sc data,
    plot (sample_points 2) (Some sample_plt) default_s default_c
      {["ybound" := VTuple [0; 10 ^ 400]]} loaded =
      (Raise (TypeError "int too large to convert to float"),
       stage loaded f a) /\
    ax_scatter a = [sc] /\
    selected (sample_points 2)
      (kwarg {["ybound" := VTuple [0; 10 ^ 400]]} "axes" (VTuple [0; 1; 2]))
      (axis_pos Y) = Ok data /\
    ax_limits a Y =
      Some (autoscale sample_plt Y data (fresh_limits sample_plt Y)) /\
    (forall d', ax_label a d' = None).
Proof.
  apply (refused_bound_propagates (sample_points 2) sample_plt default_s
           default_c {["ybound" := VTuple [0; 10 ^ 400]]} loaded Y
           (VTuple [0; 10 ^ 400])
           (TypeError "int too large to convert to float"));
    [vm_compute; reflexivity | discriminate | reflexivity
    | vm_compute; reflexivity].
Defined.
(** X22: in a well-formed call the bound read back along an axis whose
    bound option holds a pair is what the engine makes of that pair: the
    numbers it has for the two integers, lower first whatever the order
    given and whatever the direction of the axis, as the engine settles the
    interval (an interval it finds singular is widened). *)
Theorem provided_bound_as_engine_stores_it (A : ndarray) (plt : pyplot)
    (s : marker_size) (c : color) (kwargs : gmap string pyval) (w : world)
    (d : axis) (lo hi : Z) :
  well_formed A plt s c kwargs = true ->
  (d = Z_ -> (3 <= ncols A)%nat) ->
  kwargs !! bound_key d = Some (VTuple [lo; hi]) ->
  exists fig ax w' a l h,
    plot A (Some plt) s c kwargs w = (Ok (fig, ax), w') /\
    axes_objs w' !! ax = Some a /\
    num_of_int plt lo = Ok l /\ num_of_int plt hi = Ok h /\
    Axes.get_bound d a =
      Ok (Axes.ordered (settle plt d (Axes.ordered (l, h)))).
Proof.
  intros Hwf Hd Hb.
  destruct (plot_limits A plt s c kwargs w d Hwf Hd)
    as (fig & ax & w' & a & i & data & b & Hrun & Hax & _ & _ & Hreq & Hl).
  rewrite (kwarg_lookup _ _ _ _ Hb) in Hreq. unfold requested in Hreq.
  simpl in Hreq.
  destruct (num_of_int plt lo) as [l| |]; try discriminate.
  destruct (num_of_int plt hi) as [h| |]; try discriminate.
  simpl in Hreq. injection Hreq as <-.
  exists fig, ax, w', a, l, h. repeat (split; [assumption || reflexivity|]).
  now rewrite (get_bound_limits _ _ _ Hl), ordered_placed.
Qed.

Lemma provided_bound_as_engine_stores_it_witness :
  exists fig ax w' a l h,
    plot (sample_points 2) (Some sample_plt) default_s default_c
      {["xbound" := VTuple [2; 2]]} loaded = (Ok (fig, ax), w') /\
    axes_objs w' !! ax = Some a /\
    num_of_int sample_plt 2 = Ok l /\ num_of_int sample_plt 2 = Ok h /\
    Axes.get_bound X a =
      Ok (Axes.ordered (settle sample_plt X (Axes.ordered (l, h)))).
Proof.
  apply (provided_bound_as_engine_stores_it (sample_points 2) sample_plt
           default_s default_c {["xbound" := VTuple [2; 2]]} loaded X 2 2);
    [vm_compute; reflexivity | discriminate | reflexivity].
Defined.
